(** * Checkout flow controller (src/checkOUT1.tsx)

    A shallow embedding of the [Checkout] component: its form state, the
    two validity checks, the empty-cart guard, the asynchronous
    [handleSubmit] handler and the order summary's shipping row, with the
    properties the specification states about them.

    Modelling conventions.
    - Text typed by the user or received from the network is a JavaScript
      string: a sequence of UTF-16 code units ([jsstring]).  Identifiers
      and literals written in the source are ASCII and are kept as
      [string].
    - The form state is a JavaScript object updated through a computed
      key; it is a finite map from property names to values.  A property
      that is absent reads as [undefined] ([None]).
    - Amounts are integers in the smallest denomination of the currency.
    - Side effects (notifications, navigation, the HTTP request, the
      timer) are recorded, in order, as a list of [effect]s.
    - [handleSubmit] is an [async] function: it is split at its two
      [await]s into the part that runs on the submit event, the part that
      runs when the request settles and the part that runs when the timer
      fires.
    - Collaborators that are imported from other modules are parameters:
      the base URL, the currency formatter and the shipping and tax
      policies behind [calculatePricing].  So is the browser's URL
      parser, which decides whether an assignment to
      [window.location.href] navigates or throws.  The call to
      [reloadProducts] made by every render belongs to the product
      context and is not among the recorded effects.  The router, which replaces the page
      after a redirect, is outside the component: until it does, the
      component's handlers can still be called. *)

From stdpp Require Import base option list strings pretty gmap.
From Stdlib Require Import ZArith NArith Ascii String Lia.

Open Scope string_scope.
Open Scope list_scope.

(** ** JavaScript strings *)

Module JS.

(** A UTF-16 code unit. *)
Definition code_unit := N.

(** A JavaScript string value. *)
Definition jsstring := list code_unit.

(** The string value of an ASCII literal of the source. *)
Definition lit (s : string) : jsstring :=
  map N_of_ascii (list_ascii_of_string s).

(** ECMAScript WhiteSpace and LineTerminator code points, the characters
    [String.prototype.trim] strips: TAB, LF, VT, FF, CR, SP, NBSP, the
    remaining members of category Zs, LS, PS and ZWNBSP.  All of them lie
    in the Basic Multilingual Plane, so each is one code unit. *)
Definition isWhiteSpace (c : N) : bool :=
  ((9 <=? c) && (c <=? 13)
   || (c =? 32) || (c =? 160) || (c =? 5760)
   || ((8192 <=? c) && (c <=? 8202))
   || (c =? 8232) || (c =? 8233) || (c =? 8239) || (c =? 8287)
   || (c =? 12288) || (c =? 65279))%N.

Fixpoint trimStart (s : jsstring) : jsstring :=
  match s with
  | c :: rest => if isWhiteSpace c then trimStart rest else s
  | [] => []
  end.

Definition trimEnd (s : jsstring) : jsstring :=
  rev (trimStart (rev s)).

(** [s.trim()] *)
Definition trim (s : jsstring) : jsstring := trimEnd (trimStart s).

(** Truthiness of [x?.trim()] where [x] is a string or [undefined]: the
    optional chain yields [undefined] for [undefined], and both
    [undefined] and the empty string are falsy. *)
Definition truthy (v : option jsstring) : bool :=
  match v with
  | Some (_ :: _) => true
  | Some [] => false
  | None => false
  end.

(** [s !== ""] *)
Definition nonEmpty (s : jsstring) : bool :=
  match s with
  | [] => false
  | _ :: _ => true
  end.

(** A string is blank when it is empty or made of white space only. *)
Definition blank (s : jsstring) : Prop := Forall (fun c => isWhiteSpace c = true) s.

(** *** ASCII identifiers *)

Definition isUpper (c : ascii) : bool :=
  ((65 <=? nat_of_ascii c) && (nat_of_ascii c <=? 90))%nat.

(** [toLowerCase] on one ASCII character. *)
Definition lowerChar (c : ascii) : ascii :=
  if isUpper c then ascii_of_nat (nat_of_ascii c + 32) else c.

(** [s.toLowerCase()], for a string of ASCII characters: the letters A to
    Z are lower-cased and every other character is kept.  This is what
    JavaScript does on ASCII text, such as the field identifiers of the
    source; it is not what JavaScript does on other letters, and the
    statements about it are limited to ASCII strings. *)
Fixpoint toLowerCase (s : string) : string :=
  match s with
  | EmptyString => EmptyString
  | String c rest => String (lowerChar c) (toLowerCase rest)
  end.

(** [s.replace(/([A-Z])/g, " $1")]: every capital letter is replaced by a
    space followed by itself. *)
Fixpoint spaceBeforeCapitals (s : string) : string :=
  match s with
  | EmptyString => EmptyString
  | String c rest =>
      if isUpper c
      then String " " (String c (spaceBeforeCapitals rest))
      else String c (spaceBeforeCapitals rest)
  end.

End JS.

Import JS.

(** ** Completions *)

(** The result of evaluating an expression that may throw. *)
Inductive completion (A : Type) : Type :=
  | Returns (a : A)
  | Throws.
Arguments Returns {A} a.
Arguments Throws {A}.

Definition bindC {A B} (c : completion A) (k : A -> completion B) : completion B :=
  match c with
  | Returns a => k a
  | Throws => Throws
  end.

(** ** Values read from the response *)

(** JSON-like values; [VObj] lists an object's own properties. *)
#[warnings="-register-all"]
Inductive jsval : Type :=
  | VUndefined
  | VNull
  | VBool (b : bool)
  | VNum (z : Z)
  | VStr (s : jsstring)
  | VObj (props : list (string * jsval)).

Fixpoint assoc (k : string) (props : list (string * jsval)) : jsval :=
  match props with
  | [] => VUndefined
  | (k', v) :: rest => if String.eqb k k' then v else assoc k rest
  end.

(** [v.k] for a property name [k] that no primitive wrapper defines:
    reading a property of [undefined] or [null] throws a TypeError, a
    primitive has no such property, an object yields its own property or
    [undefined]. *)
Definition getProp (v : jsval) (k : string) : completion jsval :=
  match v with
  | VUndefined | VNull => Throws
  | VBool _ | VNum _ | VStr _ => Returns VUndefined
  | VObj props => Returns (assoc k props)
  end.

(** ** Form state *)

(** [useState({ email: "", firstName: "", ... })] *)
Definition initialFormData : gmap string jsstring :=
  <["email" := []]> (<["firstName" := []]> (<["lastName" := []]>
  (<["phone" := []]> (<["address1" := []]> (<["address2" := []]>
  (<["city" := []]> (<["state" := []]> (<["postalCode" := []]>
  (<["country" := []]> ∅))))))))).

(** [handleInputChange]: [{ ...prev, [name]: value }] *)
Definition handleInputChange (name : string) (value : jsstring)
    (prev : gmap string jsstring) : gmap string jsstring :=
  <[name := value]> prev.

Definition requiredFields : list string :=
  ["email"; "firstName"; "lastName"; "phone"; "address1";
   "city"; "state"; "postalCode"; "country"].

Definition allFields : list string :=
  ["email"; "firstName"; "lastName"; "phone"; "address1"; "address2";
   "city"; "state"; "postalCode"; "country"].

(** ** Effects *)

Record CartItem := {
  item_id : jsstring;
  item_name : jsstring;
  item_image : jsstring;
  item_price : Z;
  item_quantity : Z
}.

Record ShippingAddress := {
  sa_address1 : option jsstring;
  sa_address2 : option jsstring;
  sa_city : option jsstring;
  sa_state : option jsstring;
  sa_postalCode : option jsstring;
  sa_country : option jsstring
}.

(** The object literal passed to [axios.post].  A component read from the
    form state is [None] when the property is [undefined]. *)
Record PaymentLinkRequest := {
  totalAmount : Z;
  cartItems : list CartItem;
  userName : jsstring;
  userEmail : option jsstring;
  userPhone : option jsstring;
  shippingAddress : ShippingAddress
}.

Inductive effect : Type :=
  | PreventDefault
  | Toast (title description variant : string)
  | Navigate (path : string)
  | AxiosPost (url : jsstring) (body : PaymentLinkRequest)
  | SetTimeout (ms : Z)
  | ConsoleError
  | LocationHref (link : jsval).

(** ** Validation *)

(** The notification [validateForm] raises for a field. *)
Definition missingFieldToast (field : string) : effect :=
  Toast "Error"
        ("Please fill in the " ++ toLowerCase (spaceBeforeCapitals field) ++ " field.")
        "destructive".

(** The [for ... of] loop of [validateForm]. *)
Fixpoint validateFields (formData : gmap string jsstring) (fields : list string)
    : list effect * bool :=
  match fields with
  | [] => ([], true)
  | field :: rest =>
      if negb (truthy (trim <$> formData !! field))
      then ([missingFieldToast field], false)
      else validateFields formData rest
  end.

Definition validateForm (formData : gmap string jsstring) : list effect * bool :=
  validateFields formData requiredFields.

(** [fields.every(field => formData[field].trim() !== "")]; calling
    [trim] on [undefined] throws. *)
Fixpoint everyFilled (formData : gmap string jsstring) (fields : list string)
    : completion bool :=
  match fields with
  | [] => Returns true
  | field :: rest =>
      match formData !! field with
      | None => Throws
      | Some v => if nonEmpty (trim v) then everyFilled formData rest else Returns false
      end
  end.

Definition isFormValid (formData : gmap string jsstring) : completion bool :=
  everyFilled formData requiredFields.

(** ** Pricing *)

Record PricingBreakdown := {
  shipping : Z;
  tax : Z;
  total : Z
}.

(** Modelled from the spec: [calculatePricing] lives in utils/pricing,
    which is not part of the sources at hand.  The specification fixes
    its contract only: a pure function of the subtotal that returns
    [{shipping, tax, total}] with [total = subtotal + shipping + tax];
    the shipping and tax policies are owned by that module and are taken
    as parameters here. *)
Definition calculatePricing (shippingRule taxRule : Z -> Z) (subtotal : Z)
    : PricingBreakdown :=
  let shipping := shippingRule subtotal in
  let tax := taxRule subtotal in
  {| shipping := shipping; tax := tax; total := subtotal + shipping + tax |}.

(** ** The component *)

(** What [useCart()] hands to a render. *)
Record CartContext := {
  ctx_cartItems : list CartItem;
  getTotalPrice : Z
}.

(** The component's own state: the three [useState] cells. *)
Record state := {
  formData : gmap string jsstring;
  isProcessing : bool;
  animateTruck : bool
}.

Definition initialState : state :=
  {| formData := initialFormData; isProcessing := false; animateTruck := false |}.

Definition setFormData (f : gmap string jsstring -> gmap string jsstring) (st : state) : state :=
  {| formData := f (formData st);
     isProcessing := isProcessing st;
     animateTruck := animateTruck st |}.

Definition setIsProcessing (b : bool) (st : state) : state :=
  {| formData := formData st; isProcessing := b; animateTruck := animateTruck st |}.

Definition setAnimateTruck (b : bool) (st : state) : state :=
  {| formData := formData st; isProcessing := isProcessing st; animateTruck := b |}.

(** The [disabled] prop of the submit control:
    [!isFormValid || isProcessing]. *)
Definition disabled (st : state) : completion bool :=
  bindC (isFormValid (formData st)) (fun valid =>
  Returns (negb valid || isProcessing st)).

(** The body of the empty-cart effect. *)
Definition emptyCartEffect (subtotal : Z) : list effect :=
  if (subtotal =? 0)%Z then [Navigate "/cart"] else [].

(** The outcome of [axios.post]: the promise is fulfilled with the parsed
    response body in [res.data], or rejected; axios rejects on a
    transport error and, with its default [validateStatus], on every
    status outside 2xx. *)
Inductive post_outcome : Type :=
  | Resolved (data : jsval)
  | Rejected.

(** Where a running [handleSubmit] is suspended. *)
Inductive suspended : Type :=
  | AwaitPost
  | AwaitDelay (link : jsval).

(** [res.data.paymentLink.short_url] *)
Definition readLink (data : jsval) : completion jsval :=
  bindC (getProp data "paymentLink") (fun paymentLink =>
  getProp paymentLink "short_url").

(** A template-literal hole filled with a string or [undefined]. *)
Definition interpolate (v : option jsstring) : jsstring :=
  default (lit "undefined") v.

Section Checkout.

(** [import.meta.env.VITE_API_URL] *)
Variable API_URL : jsstring.

(** The policies behind [calculatePricing]. *)
Variables shippingRule taxRule : Z -> Z.

(** [formatPrice] of the currency context. *)
Variable formatPrice : Z -> string.

(** The browser's verdict on an assignment to [window.location.href]:
    whether the assigned value, converted to a string, parses as a URL
    against the address of the page.  When it does not, the assignment
    throws. *)
Variable hrefAccepts : jsval -> bool.

(** The second argument of [axios.post]. *)
Definition requestBody (ctx : CartContext) (fd : gmap string jsstring)
    : PaymentLinkRequest :=
  {| totalAmount := total (calculatePricing shippingRule taxRule (getTotalPrice ctx));
     cartItems := ctx_cartItems ctx;
     userName := interpolate (fd !! "firstName") ++ lit " " ++ interpolate (fd !! "lastName");
     userEmail := fd !! "email";
     userPhone := fd !! "phone";
     shippingAddress :=
       {| sa_address1 := fd !! "address1";
          sa_address2 := fd !! "address2";
          sa_city := fd !! "city";
          sa_state := fd !! "state";
          sa_postalCode := fd !! "postalCode";
          sa_country := fd !! "country" |} |}.

Definition paymentLinkUrl : jsstring := API_URL ++ lit "/api/payment-link".

(** [handleSubmit], from the submit event to the first [await]. *)
Definition handleSubmit_begin (ctx : CartContext) (st : state)
    : state * list effect * option suspended :=
  let '(toasts, ok) := validateForm (formData st) in
  if negb ok then (st, PreventDefault :: toasts, None)
  else
    (setIsProcessing true (setAnimateTruck true st),
     [PreventDefault; AxiosPost paymentLinkUrl (requestBody ctx (formData st))],
     Some AwaitPost).

(** The [catch] block followed by the [finally] block. *)
Definition handleSubmit_catch (st : state)
    : state * list effect * option suspended :=
  (setIsProcessing false (setAnimateTruck false st),
   [ConsoleError;
    Toast "Error" "Failed to generate payment link. Please try again." "destructive"],
   None).

(** [handleSubmit], from the settlement of the request to the second
    [await]: [res.data.paymentLink.short_url] is read, then the timer
    is started. *)
Definition handleSubmit_settled (r : post_outcome) (st : state)
    : state * list effect * option suspended :=
  match r with
  | Rejected => handleSubmit_catch st
  | Resolved data =>
      match readLink data with
      | Throws => handleSubmit_catch st
      | Returns link => (st, [SetTimeout 1500], Some (AwaitDelay link))
      end
  end.

(** [handleSubmit], after the timer: the assignment to
    [window.location.href], then the [finally] block; the assignment is
    inside the [try], so when it throws the [catch] block runs first. *)
Definition handleSubmit_elapsed (link : jsval) (st : state)
    : state * list effect * option suspended :=
  if hrefAccepts link
  then (setIsProcessing false st, [LocationHref link], None)
  else handleSubmit_catch st.

(** The row list of the order summary: label and displayed value. *)
Definition summaryRows (subtotal : Z) : list (string * string) :=
  let p := calculatePricing shippingRule taxRule subtotal in
  [("Subtotal", formatPrice subtotal);
   ("Shipping", if (shipping p =? 0)%Z then "Free" else formatPrice (shipping p));
   ("Tax", formatPrice (tax p))].

(** *** The mounted component as a transition system *)

(** The mounted component: its state, the cart values its current
    closures captured at the last render, and the [handleSubmit] calls
    that are suspended at an [await]. *)
Record component := {
  st : state;
  rendered : CartContext;
  inflight : list suspended
}.

Inductive event : Type :=
  | Render (ctx : CartContext)
  | Change (name : string) (value : jsstring)
  | Submit
  | PostSettled (i : nat) (r : post_outcome)
  | TimerFired (i : nat).

(** Events that do not belong to a [handleSubmit] call. *)
Definition passive (e : event) : Prop :=
  match e with
  | Render _ | Change _ _ => True
  | _ => False
  end.

(** First render: the effect always runs after mounting. *)
Definition mount (ctx : CartContext) : component * list effect :=
  ({| st := initialState; rendered := ctx; inflight := [] |},
   emptyCartEffect (getTotalPrice ctx)).

(** Put a resumed call back in the list, or drop it when it returned. *)
Definition resume (i : nat) (next : option suspended) (l : list suspended)
    : list suspended :=
  match next with
  | Some p => <[i := p]> l
  | None => delete i l
  end.

(** One event.  A state update is followed by a render before the next
    event is handled, so handlers read the current state; [Render]
    stands for a render with fresh cart values, after which the effect
    runs only if its dependency [subtotal] changed ([navigate] is a
    stable reference).  [None]: no such promise or timer is pending. *)
Definition step (s : component) (e : event) : option (component * list effect) :=
  match e with
  | Render ctx =>
      Some ({| st := st s; rendered := ctx; inflight := inflight s |},
            if (getTotalPrice ctx =? getTotalPrice (rendered s))%Z then []
            else emptyCartEffect (getTotalPrice ctx))
  | Change name value =>
      Some ({| st := setFormData (handleInputChange name value) (st s);
               rendered := rendered s; inflight := inflight s |}, [])
  | Submit =>
      let '(st', effs, next) := handleSubmit_begin (rendered s) (st s) in
      Some ({| st := st'; rendered := rendered s;
               inflight := inflight s ++ option_list next |}, effs)
  | PostSettled i r =>
      match inflight s !! i with
      | Some AwaitPost =>
          let '(st', effs, next) := handleSubmit_settled r (st s) in
          Some ({| st := st'; rendered := rendered s;
                   inflight := resume i next (inflight s) |}, effs)
      | _ => None
      end
  | TimerFired i =>
      match inflight s !! i with
      | Some (AwaitDelay link) =>
          let '(st', effs, next) := handleSubmit_elapsed link (st s) in
          Some ({| st := st'; rendered := rendered s;
                   inflight := resume i next (inflight s) |}, effs)
      | _ => None
      end
  end.

(** A run of events, with the effects in order of occurrence. *)
Fixpoint run (s : component) (es : list event) : option (component * list effect) :=
  match es with
  | [] => Some (s, [])
  | e :: rest =>
      match step s e with
      | None => None
      | Some (s', effs) =>
          match run s' rest with
          | None => None
          | Some (s'', effs') => Some (s'', effs ++ effs')
          end
      end
  end.

(** The browser delivers a submit event only while the submit control
    is enabled. *)
Definition deliverable (s : component) (e : event) : Prop :=
  match e with
  | Submit => disabled (st s) = Returns false
  | _ => True
  end.

(** Components reachable from mounting through deliverable events. *)
Inductive reachable : component -> Prop :=
  | reach_mount ctx : reachable (fst (mount ctx))
  | reach_step s e s' effs :
      reachable s -> deliverable s e -> step s e = Some (s', effs) ->
      reachable s'.

End Checkout.

(** ** The rendered form and order summary *)

(** An entry of the [fields] lists handed to [CheckoutSection]. *)
Record FieldConfig := {
  fc_id : string;
  fc_label : string;
  fc_maxLength : option Z
}.

(** The [fields] of the "Contact Information" section. *)
Definition contactFields : list FieldConfig :=
  [{| fc_id := "email"; fc_label := "Email Address"; fc_maxLength := None |};
   {| fc_id := "firstName"; fc_label := "First Name"; fc_maxLength := None |};
   {| fc_id := "lastName"; fc_label := "Last Name"; fc_maxLength := None |};
   {| fc_id := "phone"; fc_label := "Phone Number"; fc_maxLength := Some 10%Z |}].

(** The [fields] of the "Shipping Address" section. *)
Definition shippingFields : list FieldConfig :=
  [{| fc_id := "address1"; fc_label := "Address Line 1"; fc_maxLength := None |};
   {| fc_id := "address2"; fc_label := "Address Line 2 (Optional)"; fc_maxLength := None |};
   {| fc_id := "city"; fc_label := "City"; fc_maxLength := None |};
   {| fc_id := "state"; fc_label := "State / Province"; fc_maxLength := None |};
   {| fc_id := "postalCode"; fc_label := "Postal Code"; fc_maxLength := None |};
   {| fc_id := "country"; fc_label := "Country"; fc_maxLength := None |}].

(** What [InputGroup] renders: a label for [id] and an input whose [id]
    and [name] are both [id]; every input reports its changes to
    [handleInputChange]. *)
Record InputElement := {
  in_id : string;
  in_name : string;
  in_label : string;
  in_value : option jsstring;
  in_maxLength : option Z
}.

Definition InputGroup (id label : string) (value : option jsstring)
    (maxLength : option Z) : InputElement :=
  {| in_id := id; in_name := id; in_label := label;
     in_value := value; in_maxLength := maxLength |}.

(** [fields.map(field => <InputGroup ... value={formData[field.id]} />)] *)
Definition CheckoutSection (fields : list FieldConfig)
    (formData : gmap string jsstring) : list InputElement :=
  map (fun field =>
         InputGroup (fc_id field) (fc_label field) (formData !! fc_id field)
                    (fc_maxLength field))
      fields.

(** The inputs of the form, in document order. *)
Definition formInputs (formData : gmap string jsstring) : list InputElement :=
  CheckoutSection contactFields formData ++ CheckoutSection shippingFields formData.

(** A line of the order summary: image, name, quantity and line total. *)
Record SummaryLine := {
  line_image : jsstring;
  line_name : jsstring;
  line_quantity : Z;
  line_total : string
}.

(** [cartItems.map(item => ...)] of the order summary. *)
Definition summaryLines (formatPrice : Z -> string) (items : list CartItem)
    : list SummaryLine :=
  map (fun item =>
         {| line_image := item_image item;
            line_name := item_name item;
            line_quantity := item_quantity item;
            line_total := formatPrice (item_price item * item_quantity item)%Z |})
      items.

(** The "Total" row: [formatPrice(total)]. *)
Definition summaryTotal (shippingRule taxRule : Z -> Z) (formatPrice : Z -> string)
    (subtotal : Z) : string :=
  formatPrice (total (calculatePricing shippingRule taxRule subtotal)).

(** ** Counting effects and suspended calls *)

Fixpoint tally {A} (p : A -> bool) (l : list A) : nat :=
  match l with
  | [] => 0
  | x :: rest => (if p x then 1 else 0) + tally p rest
  end.

Definition isPost (e : effect) : bool :=
  match e with AxiosPost _ _ => true | _ => false end.

Definition isTimer (e : effect) : bool :=
  match e with SetTimeout _ => true | _ => false end.

Definition isHref (e : effect) : bool :=
  match e with LocationHref _ => true | _ => false end.

Definition isErrorLog (e : effect) : bool :=
  match e with ConsoleError => true | _ => false end.

Definition awaitsPost (p : suspended) : bool :=
  match p with AwaitPost => true | AwaitDelay _ => false end.

Definition awaitsDelay (p : suspended) : bool :=
  match p with AwaitPost => false | AwaitDelay _ => true end.

(** The effects of the [catch] block. *)
Definition failureEffects : list effect :=
  [ConsoleError;
   Toast "Error" "Failed to generate payment link. Please try again." "destructive"].

(** [null] or [undefined]. *)
Definition nullish (v : jsval) : Prop := v = VUndefined \/ v = VNull.

(** The form after a sequence of changes, oldest first. *)
Definition applyChanges (changes : list (string * jsstring))
    (fd : gmap string jsstring) : gmap string jsstring :=
  foldl (fun acc change => handleInputChange (fst change) (snd change) acc) fd changes.

(** ** Sample data *)

Module Sample.

Definition API_URL : jsstring := lit "https://api.example.test".

(** Free shipping from 1000 upwards, a flat fee below. *)
Definition shippingRule (subtotal : Z) : Z :=
  if (1000 <=? subtotal)%Z then 0%Z else 99%Z.

Definition taxRule (subtotal : Z) : Z := (subtotal * 18 / 100)%Z.

Definition formatPrice (amount : Z) : string := "INR " ++ pretty amount.

Definition saree : CartItem :=
  {| item_id := lit "p-17"; item_name := lit "Silk saree";
     item_image := lit "/img/p-17.jpg"; item_price := 1250; item_quantity := 2 |}.

Definition fullCart : CartContext :=
  {| ctx_cartItems := [saree]; getTotalPrice := 2500 |}.

Definition emptyCart : CartContext :=
  {| ctx_cartItems := []; getTotalPrice := 0 |}.

(** What the user types; the first name carries surrounding spaces. *)
Definition typing : list event :=
  [Change "email" (lit "ada@example.test");
   Change "firstName" (lit "  Ada ");
   Change "lastName" (lit "Lovelace");
   Change "phone" (lit "5550100200");
   Change "address1" (lit "12 Mill Lane");
   Change "city" (lit "Hyderabad");
   Change "state" (lit "TS");
   Change "postalCode" (lit "500001");
   Change "country" (lit "India")].

Definition filledForm : gmap string jsstring :=
  foldl (fun fd e =>
           match e with
           | Change name value => handleInputChange name value fd
           | _ => fd
           end) initialFormData typing.

(** The form with the first name made of white space only. *)
Definition blankFirstName : gmap string jsstring :=
  handleInputChange "firstName" (lit "   ") filledForm.

Definition filledState : state :=
  {| formData := filledForm; isProcessing := false; animateTruck := false |}.

Definition filled (ctx : CartContext) : component :=
  {| st := filledState; rendered := ctx; inflight := [] |}.

(** The verdicts of the URL parser on the links of the examples: it
    rejects ["http://"], a special scheme with an empty host, and resolves
    the other values, converted to strings, against the address of the
    page. *)
Definition hrefAccepts (link : jsval) : bool :=
  match link with
  | VStr s => negb (bool_decide (s = lit "http://"))
  | _ => true
  end.

Definition step := step API_URL shippingRule taxRule hrefAccepts.
Definition run := run API_URL shippingRule taxRule hrefAccepts.

Definition sampleUrl : jsstring := paymentLinkUrl API_URL.

Definition sampleBody : PaymentLinkRequest :=
  requestBody shippingRule taxRule fullCart filledForm.

(** The component right after a submission of the filled form. *)
Definition afterSubmit : component :=
  {| st := setIsProcessing true (setAnimateTruck true filledState);
     rendered := fullCart;
     inflight := [AwaitPost] |}.

(** [{ paymentLink: { short_url: "https://pay.example/abc" } }] *)
Definition okResponse : jsval :=
  VObj [("paymentLink", VObj [("short_url", VStr (lit "https://pay.example/abc"))])].

(** [{ paymentLink: { short_url: "http://" } }]: a string that is no URL. *)
Definition unparsableLink : jsval :=
  VObj [("paymentLink", VObj [("short_url", VStr (lit "http://"))])].

(** [{ paymentLink: {} }]: a payment link without its URL. *)
Definition linkWithoutUrl : jsval := VObj [("paymentLink", VObj [])].

(** [{ error: "..." }]: no payment link at all. *)
Definition noLink : jsval := VObj [("error", VStr (lit "amount too low"))].

(** The component showing the form whose first name is blank. *)
Definition blankComponent : component :=
  {| st := {| formData := blankFirstName; isProcessing := false;
              animateTruck := false |};
     rendered := fullCart;
     inflight := [] |}.

End Sample.

(** Every listed property of the form object holds a string. *)
Definition defined_on (fd : gmap string jsstring) (fields : list string) : Prop :=
  Forall (fun f => is_Some (fd !! f)) fields.

(** * Properties *)

(** ** Trimming *)

Lemma trimStart_blank (s : jsstring) : blank s -> trimStart s = [].
Proof.
  induction 1 as [|c s Hc _ IH]; simpl; [reflexivity|].
  rewrite Hc. exact IH.
Qed.

Lemma trimStart_head (s : jsstring) c r :
  trimStart s = c :: r -> isWhiteSpace c = false.
Proof.
  induction s as [|d s IH]; simpl; [discriminate|].
  destruct (isWhiteSpace d) eqn:Hd; [exact IH|].
  intros [= <- _]. exact Hd.
Qed.

Lemma trimStart_suffix (s : jsstring) :
  exists pre, s = pre ++ trimStart s /\ blank pre.
Proof.
  induction s as [|d s [pre [Hs Hpre]]]; simpl.
  - exists []. split; [reflexivity | constructor].
  - destruct (isWhiteSpace d) eqn:Hd.
    + exists (d :: pre). split; [simpl; congruence | constructor; assumption].
    + exists []. split; [reflexivity | constructor].
Qed.

Lemma trimStart_nil (s : jsstring) : trimStart s = [] -> blank s.
Proof.
  intros H. destruct (trimStart_suffix s) as [pre [Hs Hpre]].
  rewrite H, app_nil_r in Hs. subst. exact Hpre.
Qed.

Lemma blank_rev (s : jsstring) : blank s -> blank (rev s).
Proof. apply List.Forall_rev. Qed.

(** [trim] leaves nothing exactly when the string is empty or made of
    white space only. *)
Lemma trim_nil_iff (s : jsstring) : trim s = [] <-> blank s.
Proof.
  unfold trim, trimEnd. split.
  - intros H. apply (f_equal (@rev N)) in H. rewrite rev_involutive in H. simpl in H.
    apply trimStart_nil, blank_rev in H. rewrite rev_involutive in H.
    destruct (trimStart s) as [|c r] eqn:E; [apply trimStart_nil, E|].
    apply trimStart_head in E. inversion H; congruence.
  - intros H. rewrite (trimStart_blank s H). reflexivity.
Qed.

(** The stripped string starts and ends with a character that is not
    white space. *)
Lemma trim_sandwich (s : jsstring) :
  exists pre post, s = pre ++ trim s ++ post /\ blank pre /\ blank post.
Proof.
  unfold trim, trimEnd.
  destruct (trimStart_suffix s) as [pre [Hs Hpre]].
  destruct (trimStart_suffix (rev (trimStart s))) as [post [Ht Hpost]].
  exists pre, (rev post). split; [|split; [assumption | apply blank_rev, Hpost]].
  rewrite <- rev_app_distr, <- Ht, rev_involutive. exact Hs.
Qed.

Lemma truthy_trim_false (v : option jsstring) :
  truthy (trim <$> v) = false <-> (v = None \/ exists s, v = Some s /\ trim s = []).
Proof.
  destruct v as [s|]; simpl.
  - destruct (trim s) eqn:E; simpl; split; try discriminate; eauto.
    + intros [|[s' [[= <-] H]]]; congruence.
  - split; auto.
Qed.

Lemma truthy_trim_true (v : option jsstring) :
  truthy (trim <$> v) = true <-> exists s, v = Some s /\ trim s <> [].
Proof.
  destruct v as [s|]; simpl.
  - destruct (trim s) eqn:E; simpl; split; try discriminate.
    + intros [s' [[= <-] H]]; congruence.
    + intros _. exists s. split; congruence.
    + reflexivity.
  - split; [discriminate | intros [s [H _]]; discriminate].
Qed.

(** ** The two validity checks *)

Lemma validateFields_pass (fd : gmap string jsstring) fields :
  Forall (fun f => truthy (trim <$> fd !! f) = true) fields ->
  validateFields fd fields = ([], true).
Proof.
  induction 1 as [|f fields Hf _ IH]; simpl; [reflexivity|].
  rewrite Hf. exact IH.
Qed.

Lemma validateFields_fail (fd : gmap string jsstring) fields effs :
  validateFields fd fields = (effs, false) ->
  exists pre field post,
    fields = pre ++ field :: post
    /\ Forall (fun f => truthy (trim <$> fd !! f) = true) pre
    /\ truthy (trim <$> fd !! field) = false
    /\ effs = [missingFieldToast field].
Proof.
  induction fields as [|f fields IH]; simpl; [discriminate|].
  destruct (truthy (trim <$> fd !! f)) eqn:Hf; simpl.
  - intros H. destruct (IH H) as (pre & field & post & -> & Hpre & Hfield & ->).
    exists (f :: pre), field, post. repeat split; auto.
  - intros [= <-]. exists [], f, fields. repeat split; auto.
Qed.

Lemma validateFields_cases (fd : gmap string jsstring) fields :
  (validateFields fd fields = ([], true)
   /\ Forall (fun f => truthy (trim <$> fd !! f) = true) fields)
  \/ (exists effs, validateFields fd fields = (effs, false)
      /\ Exists (fun f => truthy (trim <$> fd !! f) = false) fields).
Proof.
  induction fields as [|f fields IH]; simpl.
  - left. split; [reflexivity | constructor].
  - destruct (truthy (trim <$> fd !! f)) eqn:Hf; simpl.
    + destruct IH as [[-> H]|[effs [-> H]]].
      * left. split; [reflexivity | constructor; assumption].
      * right. exists effs. split; [reflexivity | apply Exists_cons_tl, H].
    + right. eexists. split; [reflexivity | apply Exists_cons_hd, Hf].
Qed.

Lemma everyFilled_defined (fd : gmap string jsstring) fields :
  defined_on fd fields ->
  everyFilled fd fields = Returns (snd (validateFields fd fields)).
Proof.
  induction 1 as [|f fields [v Hv] _ IH]; simpl; [reflexivity|].
  rewrite Hv. simpl. destruct (trim v); simpl; [reflexivity | exact IH].
Qed.

Lemma truthy_defined (fd : gmap string jsstring) fields :
  Forall (fun f => truthy (trim <$> fd !! f) = true) fields -> defined_on fd fields.
Proof.
  intros H. eapply Forall_impl; [exact H|]. intros f Hf. simpl in Hf.
  apply truthy_trim_true in Hf. destruct Hf as [s [-> _]]. eauto.
Qed.

(** A form that passes [validateForm] is complete for [isFormValid]. *)
Lemma validateForm_isFormValid (fd : gmap string jsstring) :
  snd (validateForm fd) = true -> isFormValid fd = Returns true.
Proof.
  unfold validateForm, isFormValid. intros H.
  destruct (validateFields_cases fd requiredFields) as [[E HF]|[effs [E _]]].
  - rewrite (everyFilled_defined _ _ (truthy_defined _ _ HF)), E. reflexivity.
  - rewrite E in H. discriminate.
Qed.

Lemma isFormValid_validateForm (fd : gmap string jsstring) :
  isFormValid fd = Returns true -> validateForm fd = ([], true).
Proof.
  unfold validateForm, isFormValid.
  induction requiredFields as [|f fields IH]; simpl; [reflexivity|].
  destruct (fd !! f) as [v|]; [|discriminate]. simpl.
  destruct (trim v); simpl; [discriminate | exact IH].
Qed.

(** Both checks read the listed fields only. *)
Lemma validateFields_ext (fd fd' : gmap string jsstring) fields :
  Forall (fun f => fd' !! f = fd !! f) fields ->
  validateFields fd' fields = validateFields fd fields
  /\ everyFilled fd' fields = everyFilled fd fields.
Proof.
  induction 1 as [|f fields Hf _ [IH1 IH2]]; simpl; [split; reflexivity|].
  rewrite Hf, IH1, IH2. split; reflexivity.
Qed.

Lemma Exists_blank_fails (fd : gmap string jsstring) fields :
  (exists f v, f ∈ fields /\ fd !! f = Some v /\ blank v) ->
  snd (validateFields fd fields) = false.
Proof.
  intros (f & v & Hin & Hv & Hb).
  destruct (validateFields_cases fd fields) as [[_ HF]|[effs [-> _]]]; [|reflexivity].
  rewrite Forall_forall in HF. specialize (HF f Hin). simpl in HF.
  rewrite Hv in HF. simpl in HF.
  apply trim_nil_iff in Hb. rewrite Hb in HF. discriminate.
Qed.

Lemma Forall_filled_passes (fd : gmap string jsstring) fields :
  defined_on fd fields ->
  (forall f v, f ∈ fields -> fd !! f = Some v -> trim v <> []) ->
  Forall (fun f => truthy (trim <$> fd !! f) = true) fields.
Proof.
  intros Hdef H. apply Forall_forall. intros f Hin.
  unfold defined_on in Hdef. rewrite Forall_forall in Hdef.
  destruct (Hdef f Hin) as [v Hv].
  apply truthy_trim_true. exists v. split; [exact Hv | exact (H f v Hin Hv)].
Qed.

Lemma blankFirstName_defined : defined_on Sample.blankFirstName requiredFields.
Proof. repeat constructor; eexists; vm_compute; reflexivity. Defined.

(** C2. For a form object holding a string in every required field: if
    some required field is empty or made of white space only, then
    [validateForm] returns false and [isFormValid] is false; if every
    required field is non-empty after trimming, then [validateForm]
    returns true (raising no notification) and [isFormValid] is true.
    Neither check reads [address2]: replacing its value changes neither
    result. *)
Theorem validation_complete (fd : gmap string jsstring) :
  defined_on fd requiredFields ->
  ((exists f v, f ∈ requiredFields /\ fd !! f = Some v /\ blank v) ->
     snd (validateForm fd) = false /\ isFormValid fd = Returns false)
  /\ ((forall f v, f ∈ requiredFields -> fd !! f = Some v -> trim v <> []) ->
     validateForm fd = ([], true) /\ isFormValid fd = Returns true)
  /\ (forall address2 : jsstring,
        validateForm (<["address2" := address2]> fd) = validateForm fd
        /\ isFormValid (<["address2" := address2]> fd) = isFormValid fd).
Proof.
  intros Hdef. unfold validateForm, isFormValid. repeat split.
  - apply Exists_blank_fails, H.
  - rewrite (everyFilled_defined _ _ Hdef), (Exists_blank_fails _ _ H). reflexivity.
  - apply validateFields_pass, Forall_filled_passes; assumption.
  - rewrite (everyFilled_defined _ _ Hdef),
      (validateFields_pass _ _ (Forall_filled_passes _ _ Hdef H)). reflexivity.
  - apply validateFields_ext.
    repeat constructor; apply lookup_insert_ne; discriminate.
  - apply validateFields_ext.
    repeat constructor; apply lookup_insert_ne; discriminate.
Qed.

Lemma validation_complete_witness :
  defined_on Sample.blankFirstName requiredFields
  /\ snd (validateForm Sample.blankFirstName) = false
  /\ isFormValid Sample.blankFirstName = Returns false.
Proof.
  split; [exact blankFirstName_defined|].
  apply (proj1 (validation_complete Sample.blankFirstName blankFirstName_defined)).
  exists "firstName", (lit "   "). split; [|split].
  - apply list_elem_of_further, list_elem_of_here.
  - vm_compute. reflexivity.
  - repeat constructor.
Defined.

(** C3. When [validateForm] fails it raises exactly one notification; it
    names the first required field, in the order email, firstName,
    lastName, phone, address1, city, state, postalCode, country, that is
    absent or whose trimmed value is empty, under the name obtained by
    putting a space before each capital letter and lower-casing.  In
    particular an empty [firstName] after a filled [email] is reported as
    "first name". *)
Theorem validation_reports_first_missing :
  (forall (fd : gmap string jsstring) effs,
      validateForm fd = (effs, false) ->
      exists pre field post label,
        requiredFields = pre ++ field :: post
        /\ (forall f, f ∈ pre -> exists v, fd !! f = Some v /\ trim v <> [])
        /\ (fd !! field = None \/ exists v, fd !! field = Some v /\ trim v = [])
        /\ label = toLowerCase (spaceBeforeCapitals field)
        /\ (field, label) ∈
             [("email", "email"); ("firstName", "first name");
              ("lastName", "last name"); ("phone", "phone");
              ("address1", "address1"); ("city", "city"); ("state", "state");
              ("postalCode", "postal code"); ("country", "country")]
        /\ effs = [Toast "Error" ("Please fill in the " ++ label ++ " field.")
                         "destructive"])
  /\ (forall (fd : gmap string jsstring) email firstName,
        fd !! "email" = Some email -> trim email <> [] ->
        fd !! "firstName" = Some firstName -> trim firstName = [] ->
        validateForm fd
        = ([Toast "Error" "Please fill in the first name field." "destructive"],
           false)).
Proof.
  split.
  - intros fd effs H. unfold validateForm in H.
    destruct (validateFields_fail _ _ _ H)
      as (pre & field & post & Hsplit & Hpre & Hfield & ->).
    exists pre, field, post, (toLowerCase (spaceBeforeCapitals field)).
    split; [exact Hsplit|]. split; [|split; [|split; [reflexivity|split]]].
    + intros f Hf. rewrite Forall_forall in Hpre.
      apply truthy_trim_true, Hpre, Hf.
    + apply truthy_trim_false, Hfield.
    + assert (Hin : field ∈ requiredFields)
        by (rewrite Hsplit; apply elem_of_app; right; apply list_elem_of_here).
      clear -Hin. unfold requiredFields in Hin.
      repeat (apply elem_of_cons in Hin as [->|Hin];
              [vm_compute; repeat (first [apply list_elem_of_here | apply list_elem_of_further]) |]).
      apply elem_of_nil in Hin. destruct Hin.
    + reflexivity.
  - intros fd email firstName He Hne Hf Hfe. unfold validateForm. simpl.
    rewrite He, Hf. simpl. rewrite Hfe.
    destruct (trim email); [congruence | reflexivity].
Qed.

Lemma validation_reports_first_missing_witness :
  validateForm Sample.blankFirstName
  = ([Toast "Error" "Please fill in the first name field." "destructive"], false).
Proof.
  apply (proj2 validation_reports_first_missing Sample.blankFirstName
           (lit "ada@example.test") (lit "   ")).
  - vm_compute. reflexivity.
  - vm_compute. discriminate.
  - vm_compute. reflexivity.
  - vm_compute. reflexivity.
Defined.

(** C9. [handleInputChange] stores the new value, exactly as given, under
    the named field and leaves every other field as it was; as an event
    of the component it changes nothing but the form state and has no
    side effect. *)
Theorem field_change_frame (name : string) (value : jsstring) :
  (forall prev : gmap string jsstring,
      handleInputChange name value prev !! name = Some value
      /\ forall other, other <> name ->
           handleInputChange name value prev !! other = prev !! other)
  /\ (forall API_URL shippingRule taxRule hrefAccepts (s : component),
        exists s',
          step API_URL shippingRule taxRule hrefAccepts s (Change name value) = Some (s', [])
          /\ formData (st s') = handleInputChange name value (formData (st s))
          /\ isProcessing (st s') = isProcessing (st s)
          /\ animateTruck (st s') = animateTruck (st s)
          /\ rendered s' = rendered s
          /\ inflight s' = inflight s).
Proof.
  split.
  - intros prev. unfold handleInputChange. split.
    + apply lookup_insert_eq.
    + intros other Hne. apply lookup_insert_ne. congruence.
  - intros API_URL shippingRule taxRule hrefAccepts s. eexists. simpl. repeat split.
Qed.

Lemma field_change_frame_witness :
  handleInputChange "firstName" (lit "  Ada ") initialFormData !! "firstName"
  = Some (lit "  Ada ")
  /\ handleInputChange "firstName" (lit "  Ada ") initialFormData !! "email"
     = initialFormData !! "email".
Proof.
  destruct (proj1 (field_change_frame "firstName" (lit "  Ada ")) initialFormData)
    as [Hset Hframe].
  split; [exact Hset | apply Hframe; discriminate].
Defined.

(** ** Lists of suspended calls *)

Lemma lookup_snoc {A} (l : list A) (x : A) : (l ++ [x]) !! List.length l = Some x.
Proof. induction l as [|a l IH]; simpl; [reflexivity | exact IH]. Qed.

Lemma insert_snoc {A} (l : list A) (x y : A) : <[List.length l := y]> (l ++ [x]) = l ++ [y].
Proof. induction l as [|a l IH]; simpl; [reflexivity | f_equal; exact IH]. Qed.

Lemma delete_snoc {A} (l : list A) (x : A) : delete (List.length l) (l ++ [x]) = l.
Proof. induction l as [|a l IH]; simpl; [reflexivity | f_equal; exact IH]. Qed.

Lemma lookup_length_None {A} (l : list A) : l !! List.length l = None.
Proof. induction l as [|a l IH]; simpl; [reflexivity | exact IH]. Qed.

(** ** The handler, piece by piece *)

Lemma validateForm_true (fd : gmap string jsstring) :
  snd (validateForm fd) = true -> validateForm fd = ([], true).
Proof.
  unfold validateForm. intros H.
  destruct (validateFields_cases fd requiredFields) as [[E _]|[effs [E _]]];
    [exact E | rewrite E in H; discriminate].
Qed.

Lemma validateForm_required (fd : gmap string jsstring) :
  snd (validateForm fd) = true -> defined_on fd requiredFields.
Proof.
  unfold validateForm. intros H. apply truthy_defined.
  destruct (validateFields_cases fd requiredFields) as [[_ HF]|[effs [E _]]];
    [exact HF | rewrite E in H; discriminate].
Qed.

Lemma defined_on_insert (fd : gmap string jsstring) name value fields :
  defined_on fd fields -> defined_on (<[name := value]> fd) fields.
Proof.
  unfold defined_on. intros H. eapply Forall_impl; [exact H|].
  intros f [v Hv]. simpl. destruct (decide (name = f)) as [->|Hne].
  - rewrite lookup_insert_eq. eauto.
  - rewrite lookup_insert_ne by exact Hne. eauto.
Qed.

Lemma initialFormData_defined : defined_on initialFormData allFields.
Proof. repeat constructor; eexists; vm_compute; reflexivity. Qed.

Lemma defined_all_required (fd : gmap string jsstring) :
  defined_on fd allFields -> defined_on fd requiredFields.
Proof.
  unfold defined_on, allFields, requiredFields. intros H.
  repeat match goal with
         | H : Forall _ (_ :: _) |- _ => apply Forall_cons in H as [? H]
         end.
  repeat constructor; assumption.
Qed.

(** While a submission is being processed the submit control is disabled,
    whatever the form holds. *)
Lemma disabled_processing (s : state) :
  defined_on (formData s) requiredFields -> isProcessing s = true ->
  disabled s = Returns true.
Proof.
  intros Hdef Hp. unfold disabled, isFormValid.
  rewrite (everyFilled_defined _ _ Hdef), Hp. simpl.
  rewrite orb_true_r. reflexivity.
Qed.

Lemma disabled_idle (s : state) :
  snd (validateForm (formData s)) = true -> isProcessing s = false ->
  disabled s = Returns false.
Proof.
  intros Hv Hp. unfold disabled.
  rewrite (validateForm_isFormValid _ Hv), Hp. reflexivity.
Qed.

Lemma disabled_false_inv (s : state) :
  disabled s = Returns false ->
  validateForm (formData s) = ([], true) /\ isProcessing s = false.
Proof.
  unfold disabled. destruct (isFormValid (formData s)) as [[]|] eqn:E; simpl;
    try discriminate.
  intros [= Hp]. split; [apply isFormValid_validateForm, E | exact Hp].
Qed.

Section CheckoutProperties.

Variable API_URL : jsstring.
Variables shippingRule taxRule : Z -> Z.
Variable hrefAccepts : jsval -> bool.

Local Abbreviation step1 := (step API_URL shippingRule taxRule hrefAccepts).
Local Abbreviation runs := (run API_URL shippingRule taxRule hrefAccepts).
Local Abbreviation body_of := (requestBody shippingRule taxRule).
Local Abbreviation begin := (handleSubmit_begin API_URL shippingRule taxRule).
Local Abbreviation reach := (reachable API_URL shippingRule taxRule hrefAccepts).

Lemma handleSubmit_begin_valid (ctx : CartContext) (s : state) :
  snd (validateForm (formData s)) = true ->
  begin ctx s
  = (setIsProcessing true (setAnimateTruck true s),
     [PreventDefault; AxiosPost (paymentLinkUrl API_URL) (body_of ctx (formData s))],
     Some AwaitPost).
Proof.
  intros H. unfold handleSubmit_begin.
  rewrite (validateForm_true _ H). reflexivity.
Qed.

Lemma handleSubmit_begin_invalid (ctx : CartContext) (s : state) :
  snd (validateForm (formData s)) = false ->
  exists field,
    begin ctx s = (s, [PreventDefault; missingFieldToast field], None)
    /\ validateForm (formData s) = ([missingFieldToast field], false).
Proof.
  intros H. unfold handleSubmit_begin.
  destruct (validateForm (formData s)) as [effs ok] eqn:E. simpl in H. subst ok.
  destruct (validateFields_fail _ _ _ E) as (_ & field & _ & _ & _ & _ & ->).
  eexists. split; reflexivity.
Qed.

Lemma step_submit_valid (s : component) :
  snd (validateForm (formData (st s))) = true ->
  step1 s Submit
  = Some ({| st := setIsProcessing true (setAnimateTruck true (st s));
             rendered := rendered s;
             inflight := inflight s ++ [AwaitPost] |},
          [PreventDefault;
           AxiosPost (paymentLinkUrl API_URL)
                     (body_of (rendered s) (formData (st s)))]).
Proof.
  intros H. unfold step.
  rewrite (handleSubmit_begin_valid _ _ H). reflexivity.
Qed.

(** Renders and field changes leave the processing flags and the
    suspended calls alone, keep every field defined, and can only
    redirect to the cart. *)
Lemma run_passive (es : list event) : forall s : component,
  Forall passive es ->
  exists s' effs,
    runs s es = Some (s', effs)
    /\ isProcessing (st s') = isProcessing (st s)
    /\ animateTruck (st s') = animateTruck (st s)
    /\ inflight s' = inflight s
    /\ (forall fields, defined_on (formData (st s)) fields ->
                       defined_on (formData (st s')) fields)
    /\ Forall (fun eff => eff = Navigate "/cart") effs.
Proof.
  induction es as [|e es IH]; intros s Hes.
  - exists s, []. simpl. repeat split; auto.
  - apply Forall_cons in Hes as [He Hes].
    destruct e as [ctx|name value| | |]; simpl in He; try contradiction.
    + destruct (IH {| st := st s; rendered := ctx; inflight := inflight s |} Hes)
        as (s' & effs & Hrun & Hp & Ha & Hi & Hd & Heffs).
      simpl in *. rewrite Hrun. eexists _, _. split; [reflexivity|].
      repeat split; auto.
      apply Forall_app. split; [|exact Heffs].
      destruct (getTotalPrice ctx =? getTotalPrice (rendered s))%Z; [constructor|].
      unfold emptyCartEffect. destruct (getTotalPrice ctx =? 0)%Z; repeat constructor.
    + destruct (IH {| st := setFormData (handleInputChange name value) (st s);
                      rendered := rendered s; inflight := inflight s |} Hes)
        as (s' & effs & Hrun & Hp & Ha & Hi & Hd & Heffs).
      simpl in *. rewrite Hrun. eexists _, _. split; [reflexivity|].
      repeat split; auto.
      intros fields Hf. apply Hd. unfold handleInputChange.
      apply defined_on_insert, Hf.
Qed.

Lemma step_settled_resolved (s : component) (data link : jsval) (l : list suspended) :
  inflight s = l ++ [AwaitPost] -> readLink data = Returns link ->
  step1 s (PostSettled (List.length l) (Resolved data))
  = Some ({| st := st s; rendered := rendered s;
             inflight := l ++ [AwaitDelay link] |}, [SetTimeout 1500]).
Proof.
  intros Hi Hl. unfold step. rewrite Hi, lookup_snoc. simpl.
  rewrite Hl. simpl. rewrite insert_snoc. reflexivity.
Qed.

Lemma step_settled_failed (s : component) (r : post_outcome) (l : list suspended) :
  inflight s = l ++ [AwaitPost] ->
  (r = Rejected \/ exists data, r = Resolved data /\ readLink data = Throws) ->
  step1 s (PostSettled (List.length l) r)
  = Some ({| st := setIsProcessing false (setAnimateTruck false (st s));
             rendered := rendered s; inflight := l |},
          [ConsoleError;
           Toast "Error" "Failed to generate payment link. Please try again."
                 "destructive"]).
Proof.
  intros Hi Hr. unfold step. rewrite Hi, lookup_snoc.
  destruct Hr as [->|[data [-> Hl]]]; simpl; [|rewrite Hl; simpl];
    rewrite delete_snoc; reflexivity.
Qed.

Lemma step_elapsed (s : component) (link : jsval) (l : list suspended) :
  inflight s = l ++ [AwaitDelay link] -> hrefAccepts link = true ->
  step1 s (TimerFired (List.length l))
  = Some ({| st := setIsProcessing false (st s); rendered := rendered s;
             inflight := l |}, [LocationHref link]).
Proof.
  intros Hi Ha. unfold step, handleSubmit_elapsed. rewrite Hi, lookup_snoc, Ha.
  simpl. rewrite delete_snoc. reflexivity.
Qed.

Lemma step_elapsed_rejected (s : component) (link : jsval) (l : list suspended) :
  inflight s = l ++ [AwaitDelay link] -> hrefAccepts link = false ->
  step1 s (TimerFired (List.length l))
  = Some ({| st := setIsProcessing false (setAnimateTruck false (st s));
             rendered := rendered s; inflight := l |},
          [ConsoleError;
           Toast "Error" "Failed to generate payment link. Please try again."
                 "destructive"]).
Proof.
  intros Hi Ha. unfold step, handleSubmit_elapsed. rewrite Hi, lookup_snoc, Ha.
  simpl. rewrite delete_snoc. reflexivity.
Qed.

(** C4, as amended.  A submission with a valid form whose request is
    answered with an object whose [paymentLink] is an object whose
    [short_url] is a string that the browser accepts as a URL: the
    request is issued and the component enters processing; when the
    response arrives the only thing done is to start the 1500 ms timer;
    when the timer fires the browser is sent to exactly that string.
    Whatever renders and field changes happen in between, the submit
    control stays disabled until then. *)
Theorem submission_success (s : component) (body paymentLink : list (string * jsval))
    (short_url : jsstring) (es1 es2 : list event) :
  snd (validateForm (formData (st s))) = true ->
  assoc "paymentLink" body = VObj paymentLink ->
  assoc "short_url" paymentLink = VStr short_url ->
  hrefAccepts (VStr short_url) = true ->
  Forall passive es1 -> Forall passive es2 ->
  exists s1 s1' effs1 s2 s2' effs2 s3,
    step1 s Submit
    = Some (s1, [PreventDefault;
                 AxiosPost (paymentLinkUrl API_URL)
                           (body_of (rendered s) (formData (st s)))])
    /\ isProcessing (st s1) = true /\ animateTruck (st s1) = true
    /\ disabled (st s1) = Returns true
    /\ runs s1 es1 = Some (s1', effs1)
    /\ Forall (fun eff => eff = Navigate "/cart") effs1
    /\ disabled (st s1') = Returns true
    /\ step1 s1' (PostSettled (List.length (inflight s)) (Resolved (VObj body)))
       = Some (s2, [SetTimeout 1500])
    /\ st s2 = st s1'
    /\ runs s2 es2 = Some (s2', effs2)
    /\ Forall (fun eff => eff = Navigate "/cart") effs2
    /\ disabled (st s2') = Returns true
    /\ step1 s2' (TimerFired (List.length (inflight s)))
       = Some (s3, [LocationHref (VStr short_url)])
    /\ inflight s3 = inflight s.
Proof.
  intros Hvalid Hpl Hurl Haccept Hes1 Hes2.
  assert (Hlink : readLink (VObj body) = Returns (VStr short_url))
    by (unfold readLink; simpl; rewrite Hpl; simpl; rewrite Hurl; reflexivity).
  pose proof (validateForm_required _ Hvalid) as Hdef.
  set (s1 := {| st := setIsProcessing true (setAnimateTruck true (st s));
                rendered := rendered s; inflight := inflight s ++ [AwaitPost] |}).
  destruct (run_passive es1 s1 Hes1)
    as (s1' & effs1 & Hrun1 & Hp1 & _ & Hi1 & Hd1 & He1).
  set (s2 := {| st := st s1'; rendered := rendered s1';
                inflight := inflight s ++ [AwaitDelay (VStr short_url)] |}).
  destruct (run_passive es2 s2 Hes2)
    as (s2' & effs2 & Hrun2 & Hp2 & _ & Hi2 & Hd2 & He2).
  exists s1, s1', effs1, s2, s2', effs2.
  eexists. split; [apply step_submit_valid, Hvalid|].
  split; [reflexivity|]. split; [reflexivity|].
  split; [apply disabled_processing; [exact Hdef | reflexivity]|].
  split; [exact Hrun1|]. split; [exact He1|].
  split; [apply disabled_processing; [apply Hd1, Hdef | rewrite Hp1; reflexivity]|].
  split; [apply step_settled_resolved; [exact Hi1 | exact Hlink]|].
  split; [reflexivity|].
  split; [exact Hrun2|]. split; [exact He2|].
  split; [apply disabled_processing;
          [apply Hd2, Hd1, Hdef | rewrite Hp2; simpl; rewrite Hp1; reflexivity]|].
  split; [apply step_elapsed; [exact Hi2 | exact Haccept] | reflexivity].
Qed.

(** C5, as amended.  A submission with a valid form whose request is
    rejected (transport error or non-success status), or whose response
    has no readable [paymentLink] (reading
    [res.data.paymentLink.short_url] throws): the generic error
    notification is raised, the indicator is stopped, processing ends so
    that the submit control is enabled again for a valid form, and the
    call is over: it starts no timer and assigns no location. *)
Theorem submission_failure (s : component) (r : post_outcome) (es1 : list event) :
  snd (validateForm (formData (st s))) = true ->
  (r = Rejected \/ exists data, r = Resolved data /\ readLink data = Throws) ->
  Forall passive es1 ->
  exists s1 s1' effs1 s2,
    step1 s Submit
    = Some (s1, [PreventDefault;
                 AxiosPost (paymentLinkUrl API_URL)
                           (body_of (rendered s) (formData (st s)))])
    /\ runs s1 es1 = Some (s1', effs1)
    /\ step1 s1' (PostSettled (List.length (inflight s)) r)
       = Some (s2, [ConsoleError;
                    Toast "Error"
                          "Failed to generate payment link. Please try again."
                          "destructive"])
    /\ isProcessing (st s2) = false
    /\ animateTruck (st s2) = false
    /\ formData (st s2) = formData (st s1')
    /\ (snd (validateForm (formData (st s2))) = true ->
        disabled (st s2) = Returns false)
    /\ inflight s2 = inflight s
    /\ step1 s2 (TimerFired (List.length (inflight s))) = None.
Proof.
  intros Hvalid Hr Hes1.
  set (s1 := {| st := setIsProcessing true (setAnimateTruck true (st s));
                rendered := rendered s; inflight := inflight s ++ [AwaitPost] |}).
  destruct (run_passive es1 s1 Hes1)
    as (s1' & effs1 & Hrun1 & _ & _ & Hi1 & _ & _).
  exists s1, s1', effs1. eexists.
  split; [apply step_submit_valid, Hvalid|].
  split; [exact Hrun1|].
  split; [apply step_settled_failed; [exact Hi1 | exact Hr]|].
  simpl. repeat split.
  - intros Hv. apply disabled_idle; [exact Hv | reflexivity].
  - unfold step. simpl. rewrite lookup_length_None. reflexivity.
Qed.

(** *** Where requests come from *)

Lemma required_values (fd : gmap string jsstring) :
  snd (validateForm fd) = true ->
  exists email firstName lastName phone address1 city state postalCode country,
    fd !! "email" = Some email /\ fd !! "firstName" = Some firstName
    /\ fd !! "lastName" = Some lastName /\ fd !! "phone" = Some phone
    /\ fd !! "address1" = Some address1 /\ fd !! "city" = Some city
    /\ fd !! "state" = Some state /\ fd !! "postalCode" = Some postalCode
    /\ fd !! "country" = Some country.
Proof.
  intros H. apply validateForm_required in H.
  unfold defined_on, requiredFields in H.
  repeat (apply Forall_cons in H; destruct H as [[? ?] H]).
  eexists _, _, _, _, _, _, _, _, _. repeat split; eassumption.
Qed.

Lemma submit_post_inv (s s' : component) effs url body :
  step1 s Submit = Some (s', effs) -> AxiosPost url body ∈ effs ->
  snd (validateForm (formData (st s))) = true
  /\ url = paymentLinkUrl API_URL
  /\ body = body_of (rendered s) (formData (st s))
  /\ effs = [PreventDefault; AxiosPost url body].
Proof.
  intros Hstep Hin.
  destruct (snd (validateForm (formData (st s)))) eqn:Hv.
  - rewrite (step_submit_valid _ Hv) in Hstep. injection Hstep as _ <-.
    apply elem_of_cons in Hin as [Hin|Hin]; [discriminate|].
    apply elem_of_cons in Hin as [Hin|Hin]; [|apply elem_of_nil in Hin; contradiction].
    injection Hin as -> ->. repeat split.
  - unfold step in Hstep.
    destruct (handleSubmit_begin_invalid (rendered s) _ Hv) as [field [E _]].
    rewrite E in Hstep. injection Hstep as _ <-.
    apply elem_of_cons in Hin as [Hin|Hin]; [discriminate|].
    apply elem_of_cons in Hin as [Hin|Hin]; [discriminate|].
    apply elem_of_nil in Hin. contradiction.
Qed.

Lemma post_only_on_submit (s s' : component) (e : event) effs url body :
  step1 s e = Some (s', effs) -> AxiosPost url body ∈ effs -> e = Submit.
Proof.
  intros Hstep Hin. destruct e as [ctx|name value| |i r|i]; [| |reflexivity| |];
    exfalso; unfold step in Hstep.
  - injection Hstep as _ <-.
    destruct (getTotalPrice ctx =? getTotalPrice (rendered s))%Z;
      [apply elem_of_nil in Hin; exact Hin|].
    unfold emptyCartEffect in Hin. destruct (getTotalPrice ctx =? 0)%Z;
      [|apply elem_of_nil in Hin; exact Hin].
    apply elem_of_cons in Hin as [Hin|Hin]; [discriminate|].
    apply elem_of_nil in Hin. exact Hin.
  - injection Hstep as _ <-. apply elem_of_nil in Hin. exact Hin.
  - destruct (inflight s !! i) as [[|link]|]; try discriminate.
    unfold handleSubmit_settled, handleSubmit_catch in Hstep.
    destruct r as [data|]; [destruct (readLink data)|];
      injection Hstep as _ <-;
      repeat (apply elem_of_cons in Hin as [Hin|Hin]; [discriminate|]);
      apply elem_of_nil in Hin; exact Hin.
  - destruct (inflight s !! i) as [[|link]|]; try discriminate.
    unfold handleSubmit_elapsed, handleSubmit_catch in Hstep.
    destruct (hrefAccepts link); injection Hstep as _ <-;
      repeat (apply elem_of_cons in Hin as [Hin|Hin]; [discriminate|]);
      apply elem_of_nil in Hin; exact Hin.
Qed.

(** C6. Whatever the component does, a request it issues comes from a
    submission, is the only request of that step, is a POST to the base
    URL followed by [/api/payment-link], and carries: the grand total
    computed from the subtotal of the current render, the cart items of
    that render, the first and last name joined by a space, the email,
    the phone and the six address fields of the form. *)
Theorem payment_request_shape (s s' : component) (e : event) effs url body :
  step1 s e = Some (s', effs) -> AxiosPost url body ∈ effs ->
  e = Submit
  /\ effs = [PreventDefault; AxiosPost url body]
  /\ url = API_URL ++ lit "/api/payment-link"
  /\ exists email firstName lastName phone address1 city state postalCode country,
      formData (st s) !! "email" = Some email
      /\ formData (st s) !! "firstName" = Some firstName
      /\ formData (st s) !! "lastName" = Some lastName
      /\ formData (st s) !! "phone" = Some phone
      /\ formData (st s) !! "address1" = Some address1
      /\ formData (st s) !! "city" = Some city
      /\ formData (st s) !! "state" = Some state
      /\ formData (st s) !! "postalCode" = Some postalCode
      /\ formData (st s) !! "country" = Some country
      /\ body =
         {| totalAmount :=
              total (calculatePricing shippingRule taxRule
                                      (getTotalPrice (rendered s)));
            cartItems := ctx_cartItems (rendered s);
            userName := firstName ++ lit " " ++ lastName;
            userEmail := Some email;
            userPhone := Some phone;
            shippingAddress :=
              {| sa_address1 := Some address1;
                 sa_address2 := formData (st s) !! "address2";
                 sa_city := Some city;
                 sa_state := Some state;
                 sa_postalCode := Some postalCode;
                 sa_country := Some country |} |}.
Proof.
  intros Hstep Hin.
  pose proof (post_only_on_submit _ _ _ _ _ _ Hstep Hin) as ->.
  destruct (submit_post_inv _ _ _ _ _ Hstep Hin) as (Hv & -> & -> & ->).
  split; [reflexivity|]. split; [reflexivity|]. split; [reflexivity|].
  destruct (required_values _ Hv)
    as (email & firstName & lastName & phone & address1 & city & state
        & postalCode & country & H1 & H2 & H3 & H4 & H5 & H6 & H7 & H8 & H9).
  exists email, firstName, lastName, phone, address1, city, state, postalCode, country.
  repeat (split; [assumption|]).
  unfold requestBody. rewrite H1, H2, H3, H4, H5, H6, H7, H8, H9. reflexivity.
Qed.

(** C10. A value typed into a field is stored as typed, and the request
    of a following submission carries the stored values as they are:
    the user name is the stored first name, one space and the stored
    last name, and the email, the phone and the address parts are the
    stored strings, none of them trimmed. *)
Theorem request_carries_raw_values (s s1 s2 : component) (name : string)
    (value : jsstring) effs0 effs url body :
  step1 s (Change name value) = Some (s1, effs0) ->
  step1 s1 Submit = Some (s2, effs) -> AxiosPost url body ∈ effs ->
  formData (st s1) !! name = Some value
  /\ (exists firstName lastName,
        formData (st s1) !! "firstName" = Some firstName
        /\ formData (st s1) !! "lastName" = Some lastName
        /\ userName body = firstName ++ [32%N] ++ lastName)
  /\ userEmail body = formData (st s1) !! "email"
  /\ userPhone body = formData (st s1) !! "phone"
  /\ sa_address1 (shippingAddress body) = formData (st s1) !! "address1"
  /\ sa_address2 (shippingAddress body) = formData (st s1) !! "address2"
  /\ sa_city (shippingAddress body) = formData (st s1) !! "city"
  /\ sa_state (shippingAddress body) = formData (st s1) !! "state"
  /\ sa_postalCode (shippingAddress body) = formData (st s1) !! "postalCode"
  /\ sa_country (shippingAddress body) = formData (st s1) !! "country".
Proof.
  intros Hchange Hstep Hin.
  destruct (submit_post_inv _ _ _ _ _ Hstep Hin) as (Hv & _ & -> & _).
  split.
  - unfold step in Hchange. injection Hchange as <- _. simpl.
    apply lookup_insert_eq.
  - destruct (required_values _ Hv)
      as (email & firstName & lastName & _ & _ & _ & _ & _ & _
          & _ & H2 & H3 & _).
    split; [|repeat split].
    exists firstName, lastName. split; [exact H2|]. split; [exact H3|].
    unfold requestBody. simpl. rewrite H2, H3. reflexivity.
Qed.

(** *** The empty-cart guard *)

(** C1, as amended.  When the component mounts with a subtotal of
    exactly 0, and whenever a later render brings a subtotal of exactly
    0 after a different one, the effect redirects to the cart page and
    does nothing else; this holds whatever the processing flag, the
    form and the suspended submissions are, none of which it touches. *)
Theorem empty_cart_guard (s : component) (ctx : CartContext) :
  getTotalPrice ctx = 0%Z ->
  snd (mount ctx) = [Navigate "/cart"]
  /\ (getTotalPrice (rendered s) <> 0%Z ->
      step1 s (Render ctx)
      = Some ({| st := st s; rendered := ctx; inflight := inflight s |},
              [Navigate "/cart"])).
Proof.
  intros H0. unfold mount, step, emptyCartEffect. simpl. rewrite H0. simpl.
  split; [reflexivity|]. intros Hne.
  destruct (getTotalPrice (rendered s)); [congruence | reflexivity | reflexivity].
Qed.

(** *** One submission at a time *)

Lemma reachable_invariant (s : component) :
  reach s ->
  defined_on (formData (st s)) allFields
  /\ ((inflight s = [] /\ isProcessing (st s) = false)
      \/ (exists p, inflight s = [p] /\ isProcessing (st s) = true)).
Proof.
  induction 1 as [ctx|s e s' effs _ [IHd IHi] Hdel Hstep].
  - simpl. split; [exact initialFormData_defined | left; split; reflexivity].
  - destruct e as [ctx|name value| |i r|i]; unfold step in Hstep.
    + injection Hstep as <- _. simpl. split; assumption.
    + injection Hstep as <- _. simpl. split; [|assumption].
      apply defined_on_insert, IHd.
    + simpl in Hdel. apply disabled_false_inv in Hdel as [Hv Hp].
      destruct IHi as [[Hi _]|[p [_ Hp']]]; [|congruence].
      unfold handleSubmit_begin in Hstep. rewrite Hv in Hstep. simpl in Hstep.
      injection Hstep as <- _. simpl. split; [exact IHd|].
      right. exists AwaitPost. rewrite Hi. split; reflexivity.
    + destruct IHi as [[Hi _]|[p [Hi Hp]]]; rewrite Hi in Hstep.
      * destruct i; discriminate.
      * destruct i as [|[|i]]; simpl in Hstep; try discriminate.
        destruct p as [|link]; [|discriminate].
        unfold handleSubmit_settled, handleSubmit_catch in Hstep.
        destruct r as [data|]; [destruct (readLink data)|];
          injection Hstep as <- _; simpl; (split; [exact IHd|]).
        -- right. eexists. split; [reflexivity | exact Hp].
        -- left. split; reflexivity.
        -- left. split; reflexivity.
    + destruct IHi as [[Hi _]|[p [Hi Hp]]]; rewrite Hi in Hstep.
      * destruct i; discriminate.
      * destruct i as [|[|i]]; simpl in Hstep; try discriminate.
        destruct p as [|link]; [discriminate|].
        unfold handleSubmit_elapsed, handleSubmit_catch in Hstep.
        destruct (hrefAccepts link); injection Hstep as <- _; simpl;
          (split; [exact IHd|]); left; split; reflexivity.
Qed.

(** X8. In a component driven through its user interface at most one
    submission is pending, and the submit control is disabled for as
    long as it is. *)
Lemma disabled_while_inflight (s : component) :
  reach s ->
  List.length (inflight s) <= 1
  /\ (inflight s <> [] -> disabled (st s) = Returns true).
Proof.
  intros H. destruct (reachable_invariant s H) as [Hd [[Hi Hp]|[p [Hi Hp]]]];
    rewrite Hi; simpl; split; try lia; try congruence.
  intros _. apply disabled_processing; [apply defined_all_required, Hd | exact Hp].
Qed.

End CheckoutProperties.

(** ** Pricing and the order summary *)

(** C7. For every non-negative subtotal the three outputs of
    [calculatePricing] satisfy [total = subtotal + shipping + tax]. *)
Theorem pricing_total_identity (shippingRule taxRule : Z -> Z) (subtotal : Z) :
  (0 <= subtotal)%Z ->
  let p := calculatePricing shippingRule taxRule subtotal in
  total p = (subtotal + shipping p + tax p)%Z.
Proof. intros _. reflexivity. Qed.

Lemma pricing_total_identity_witness :
  total (calculatePricing Sample.shippingRule Sample.taxRule 2500)
  = (2500 + shipping (calculatePricing Sample.shippingRule Sample.taxRule 2500)
     + tax (calculatePricing Sample.shippingRule Sample.taxRule 2500))%Z.
Proof.
  apply (pricing_total_identity Sample.shippingRule Sample.taxRule 2500). lia.
Defined.

(** C8. The second row of the order summary is the shipping row; it shows
    the literal "Free" when the computed shipping is exactly 0 and the
    formatted shipping amount otherwise. *)
Theorem shipping_row_free (shippingRule taxRule : Z -> Z) (formatPrice : Z -> string)
    (subtotal : Z) :
  let rows := summaryRows shippingRule taxRule formatPrice subtotal in
  let p := calculatePricing shippingRule taxRule subtotal in
  fst <$> rows = ["Subtotal"; "Shipping"; "Tax"]
  /\ (shipping p = 0%Z -> rows !! 1%nat = Some ("Shipping", "Free"))
  /\ (shipping p <> 0%Z -> rows !! 1%nat = Some ("Shipping", formatPrice (shipping p))).
Proof.
  unfold summaryRows. simpl. split; [reflexivity|]. split.
  - intros ->. reflexivity.
  - intros Hne. destruct (shippingRule subtotal); [congruence | reflexivity | reflexivity].
Qed.

Lemma shipping_row_free_witness :
  summaryRows Sample.shippingRule Sample.taxRule Sample.formatPrice 2500 !! 1%nat
  = Some ("Shipping", "Free")
  /\ summaryRows Sample.shippingRule Sample.taxRule Sample.formatPrice 400 !! 1%nat
     = Some ("Shipping", "INR 99").
Proof.
  split.
  - apply (proj1 (proj2 (shipping_row_free Sample.shippingRule Sample.taxRule
                           Sample.formatPrice 2500))).
    reflexivity.
  - apply (proj2 (proj2 (shipping_row_free Sample.shippingRule Sample.taxRule
                           Sample.formatPrice 400))).
    discriminate.
Defined.

(** ** Concrete runs *)

Lemma filled_valid : snd (validateForm (formData (st (Sample.filled Sample.fullCart)))) = true.
Proof. vm_compute. reflexivity. Defined.

Lemma empty_cart_guard_witness :
  snd (mount Sample.emptyCart) = [Navigate "/cart"]
  /\ Sample.step Sample.afterSubmit (Render Sample.emptyCart)
     = Some ({| st := st Sample.afterSubmit; rendered := Sample.emptyCart;
                inflight := [AwaitPost] |}, [Navigate "/cart"]).
Proof.
  destruct (empty_cart_guard Sample.API_URL Sample.shippingRule Sample.taxRule
              Sample.hrefAccepts Sample.afterSubmit Sample.emptyCart) as [Hmount Hrender];
    [reflexivity|].
  split; [exact Hmount | apply Hrender; discriminate].
Defined.

(** C1, as stated, fails.  The cart holds one item when the page is
    opened; the user fills the form; the cart is emptied elsewhere, the
    component renders with a subtotal of 0 and redirects.  The submit
    control is still enabled, and a submission handled at that point
    issues a request, for the total computed from the subtotal 0 and with
    no cart items. *)
Lemma empty_cart_submission_issues_request :
  (Sample.run (fst (mount Sample.fullCart)) (Sample.typing ++ [Render Sample.emptyCart])
     ≫= fun p => Some (getTotalPrice (rendered (fst p)), disabled (st (fst p)), snd p))
  = Some (0%Z, Returns false, [Navigate "/cart"])
  /\ snd <$> Sample.run (fst (mount Sample.fullCart))
                (Sample.typing ++ [Render Sample.emptyCart; Submit])
     = Some [Navigate "/cart"; PreventDefault;
             AxiosPost (lit "https://api.example.test/api/payment-link")
               {| totalAmount := 99;
                  cartItems := [];
                  userName := lit "  Ada  Lovelace";
                  userEmail := Some (lit "ada@example.test");
                  userPhone := Some (lit "5550100200");
                  shippingAddress :=
                    {| sa_address1 := Some (lit "12 Mill Lane");
                       sa_address2 := Some [];
                       sa_city := Some (lit "Hyderabad");
                       sa_state := Some (lit "TS");
                       sa_postalCode := Some (lit "500001");
                       sa_country := Some (lit "India") |} |}].
Proof. split; vm_compute; reflexivity. Qed.

Lemma submission_success_witness :
  exists s1 s1' effs1 s2 s2' effs2 s3,
    Sample.step (Sample.filled Sample.fullCart) Submit
    = Some (s1, [PreventDefault; AxiosPost Sample.sampleUrl Sample.sampleBody])
    /\ Sample.run s1 [Change "address2" (lit "Flat 4")] = Some (s1', effs1)
    /\ disabled (st s1') = Returns true
    /\ Sample.step s1' (PostSettled 0 (Resolved Sample.okResponse))
       = Some (s2, [SetTimeout 1500])
    /\ Sample.run s2 [Render Sample.emptyCart] = Some (s2', effs2)
    /\ disabled (st s2') = Returns true
    /\ Sample.step s2' (TimerFired 0)
       = Some (s3, [LocationHref (VStr (lit "https://pay.example/abc"))])
    /\ inflight s3 = [].
Proof.
  destruct (submission_success Sample.API_URL Sample.shippingRule Sample.taxRule
              Sample.hrefAccepts (Sample.filled Sample.fullCart)
              [("paymentLink",
                VObj [("short_url", VStr (lit "https://pay.example/abc"))])]
              [("short_url", VStr (lit "https://pay.example/abc"))]
              (lit "https://pay.example/abc")
              [Change "address2" (lit "Flat 4")] [Render Sample.emptyCart])
    as (s1 & s1' & effs1 & s2 & s2' & effs2 & s3
        & H1 & _ & _ & _ & H5 & _ & H7 & H8 & _ & H10 & _ & H12 & H13 & H14).
  - exact filled_valid.
  - reflexivity.
  - reflexivity.
  - vm_compute. reflexivity.
  - repeat constructor.
  - repeat constructor.
  - exists s1, s1', effs1, s2, s2', effs2, s3.
    split; [exact H1|]. split; [exact H5|]. split; [exact H7|].
    split; [exact H8|]. split; [exact H10|]. split; [exact H12|].
    split; [exact H13 | exact H14].
Defined.

(** C4, as stated, fails for a [short_url] that is no URL.  The response
    carries the string ["http://"]: the timer is started, but when it
    fires the assignment to [window.location.href] throws, so the error is
    logged, the generic notification is raised and nothing is navigated. *)
Lemma unparsable_link_not_navigated :
  readLink Sample.unparsableLink = Returns (VStr (lit "http://"))
  /\ Sample.hrefAccepts (VStr (lit "http://")) = false
  /\ snd <$> Sample.run (Sample.filled Sample.fullCart)
                [Submit; PostSettled 0 (Resolved Sample.unparsableLink); TimerFired 0]
     = Some [PreventDefault; AxiosPost Sample.sampleUrl Sample.sampleBody;
             SetTimeout 1500; ConsoleError;
             Toast "Error" "Failed to generate payment link. Please try again."
                   "destructive"].
Proof. repeat split; vm_compute; reflexivity. Qed.

Lemma submission_failure_witness :
  exists s1' s2,
    Sample.step s1' (PostSettled 0 (Resolved Sample.noLink))
    = Some (s2, [ConsoleError;
                 Toast "Error" "Failed to generate payment link. Please try again."
                       "destructive"])
    /\ isProcessing (st s2) = false
    /\ Sample.step s2 (TimerFired 0) = None.
Proof.
  destruct (submission_failure Sample.API_URL Sample.shippingRule Sample.taxRule
              Sample.hrefAccepts (Sample.filled Sample.fullCart) (Resolved Sample.noLink)
              [Change "address2" (lit "Flat 4")])
    as (s1 & s1' & effs1 & s2 & H).
  - exact filled_valid.
  - right. exists Sample.noLink. split; reflexivity.
  - repeat constructor.
  - exists s1', s2. repeat split; apply H.
Defined.

(** C5, as stated, fails for a malformed response.  The response carries
    a [paymentLink] object without [short_url]: nothing throws, no
    notification is raised, the timer is started and the location is
    assigned [undefined]. *)
Lemma malformed_response_navigates :
  readLink Sample.linkWithoutUrl = Returns VUndefined
  /\ snd <$> Sample.run (Sample.filled Sample.fullCart)
                [Submit; PostSettled 0 (Resolved Sample.linkWithoutUrl); TimerFired 0]
     = Some [PreventDefault; AxiosPost Sample.sampleUrl Sample.sampleBody;
             SetTimeout 1500; LocationHref VUndefined].
Proof. split; vm_compute; reflexivity. Qed.

Lemma payment_request_shape_witness :
  Sample.step (Sample.filled Sample.fullCart) Submit
  = Some (Sample.afterSubmit,
          [PreventDefault; AxiosPost Sample.sampleUrl Sample.sampleBody])
  /\ Sample.sampleUrl = Sample.API_URL ++ lit "/api/payment-link"
  /\ exists firstName lastName,
       Sample.filledForm !! "firstName" = Some firstName
       /\ Sample.filledForm !! "lastName" = Some lastName
       /\ userName Sample.sampleBody = firstName ++ lit " " ++ lastName.
Proof.
  assert (Hstep : Sample.step (Sample.filled Sample.fullCart) Submit
                  = Some (Sample.afterSubmit,
                          [PreventDefault;
                           AxiosPost Sample.sampleUrl Sample.sampleBody]))
    by (vm_compute; reflexivity).
  destruct (payment_request_shape Sample.API_URL Sample.shippingRule Sample.taxRule
              Sample.hrefAccepts _ _ _ _ Sample.sampleUrl Sample.sampleBody Hstep)
    as (_ & _ & Hurl & email & firstName & lastName & phone & address1 & city
        & state & postalCode & country & _ & Hf & Hl & _ & _ & _ & _ & _ & _ & Hbody).
  - apply list_elem_of_further, list_elem_of_here.
  - split; [exact Hstep|]. split; [exact Hurl|].
    exists firstName, lastName. split; [exact Hf|]. split; [exact Hl|].
    rewrite Hbody. reflexivity.
Defined.

Lemma request_carries_raw_values_witness :
  formData (st (Sample.filled Sample.fullCart)) !! "firstName" = Some (lit "  Ada ")
  /\ userName Sample.sampleBody = lit "  Ada  Lovelace"
  /\ userEmail Sample.sampleBody = Some (lit "ada@example.test").
Proof.
  destruct (request_carries_raw_values Sample.API_URL Sample.shippingRule
              Sample.taxRule Sample.hrefAccepts (Sample.filled Sample.fullCart)
              (Sample.filled Sample.fullCart) Sample.afterSubmit
              "firstName" (lit "  Ada ") []
              [PreventDefault; AxiosPost Sample.sampleUrl Sample.sampleBody]
              Sample.sampleUrl Sample.sampleBody)
    as (Hstored & (firstName & lastName & Hf & Hl & Hname) & Hemail & _).
  - vm_compute. reflexivity.
  - vm_compute. reflexivity.
  - apply list_elem_of_further, list_elem_of_here.
  - split; [exact Hstored|]. split.
    + rewrite Hname. vm_compute in Hf, Hl.
      injection Hf as <-. injection Hl as <-. reflexivity.
    + rewrite Hemail. vm_compute. reflexivity.
Defined.

(** * Further properties *)

(** ** What [trim] returns *)

Lemma trimStart_id (s : jsstring) :
  (forall c r, s = c :: r -> isWhiteSpace c = false) -> trimStart s = s.
Proof.
  destruct s as [|c r]; simpl; [reflexivity|].
  intros H. rewrite (H c r eq_refl). reflexivity.
Qed.

Lemma trim_prefix (s : jsstring) :
  exists post, trimStart s = trim s ++ post /\ blank post.
Proof.
  unfold trim, trimEnd.
  destruct (trimStart_suffix (rev (trimStart s))) as [pre [Ht Hpre]].
  exists (rev pre). split; [|apply blank_rev, Hpre].
  rewrite <- rev_app_distr, <- Ht, rev_involutive. reflexivity.
Qed.

Lemma trim_first (s : jsstring) c r : trim s = c :: r -> isWhiteSpace c = false.
Proof.
  intros H. destruct (trim_prefix s) as [post [Ht _]].
  rewrite H in Ht. simpl in Ht. exact (trimStart_head _ _ _ Ht).
Qed.

Lemma trim_last (s : jsstring) r c : trim s = r ++ [c] -> isWhiteSpace c = false.
Proof.
  unfold trim, trimEnd. intros H.
  apply (f_equal (@rev N)) in H. rewrite rev_involutive, rev_app_distr in H.
  simpl in H. exact (trimStart_head _ _ _ H).
Qed.

(** X4. [trim] removes white space from the two ends and nothing else:
    the string is the result between two runs of white space, the result
    neither starts nor ends with white space, and trimming again changes
    nothing. *)
Theorem trim_spec (s : jsstring) :
  (exists pre post, s = pre ++ trim s ++ post /\ blank pre /\ blank post)
  /\ (forall c r, trim s = c :: r -> isWhiteSpace c = false)
  /\ (forall r c, trim s = r ++ [c] -> isWhiteSpace c = false)
  /\ trim (trim s) = trim s.
Proof.
  split; [apply trim_sandwich|]. split; [apply trim_first|].
  split; [apply trim_last|].
  assert (H1 : trimStart (trim s) = trim s) by (apply trimStart_id, trim_first).
  unfold trim at 1. rewrite H1. unfold trim, trimEnd.
  rewrite rev_involutive. f_equal.
  apply trimStart_id. intros c r. apply trimStart_head.
Qed.

(** ** The two checks against each other *)

Lemma everyFilled_validateFields (fd : gmap string jsstring) fields :
  match everyFilled fd fields with
  | Returns b => snd (validateFields fd fields) = b
  | Throws => snd (validateFields fd fields) = false
              /\ exists f, f ∈ fields /\ fd !! f = None
  end.
Proof.
  induction fields as [|f fields IH]; simpl; [reflexivity|].
  destruct (fd !! f) as [v|] eqn:Hf; simpl.
  - destruct (trim v); simpl; [reflexivity|].
    destruct (everyFilled fd fields); [exact IH|].
    destruct IH as [IH [g [Hg Hn]]]. split; [exact IH|].
    exists g. split; [apply list_elem_of_further, Hg | exact Hn].
  - split; [reflexivity|]. exists f. split; [apply list_elem_of_here | exact Hf].
Qed.

(** X1. The check behind the submit control and the check run on
    submission agree: [isFormValid] is true exactly when [validateForm]
    passes without a notification; when [isFormValid] is false, or throws
    because a required property is absent, [validateForm] fails. *)
Theorem checks_agree (fd : gmap string jsstring) :
  (isFormValid fd = Returns true <-> validateForm fd = ([], true))
  /\ (isFormValid fd = Returns false -> snd (validateForm fd) = false)
  /\ (isFormValid fd = Throws ->
      snd (validateForm fd) = false
      /\ exists f, f ∈ requiredFields /\ fd !! f = None).
Proof.
  pose proof (everyFilled_validateFields fd requiredFields) as H.
  unfold isFormValid, validateForm. split; [split|split].
  - intros E. rewrite E in H. apply validateForm_true, H.
  - intros E. apply validateForm_isFormValid.
    unfold validateForm. rewrite E. reflexivity.
  - intros E. rewrite E in H. exact H.
  - intros E. rewrite E in H. exact H.
Qed.

Lemma checks_agree_witness :
  isFormValid (delete "phone" Sample.filledForm) = Throws
  /\ snd (validateForm (delete "phone" Sample.filledForm)) = false.
Proof.
  assert (E : isFormValid (delete "phone" Sample.filledForm) = Throws)
    by (vm_compute; reflexivity).
  split; [exact E|].
  apply (proj2 (proj2 (checks_agree (delete "phone" Sample.filledForm))) E).
Defined.

(** ** White space around a value *)

Lemma blank_pad (pre v post : jsstring) :
  blank pre -> blank post -> (trim (pre ++ v ++ post) = [] <-> trim v = []).
Proof.
  intros Hpre Hpost. rewrite !trim_nil_iff. unfold blank.
  rewrite !Forall_app. tauto.
Qed.

Lemma checks_same_blanks (fd fd' : gmap string jsstring) fields :
  Forall (fun g => match fd !! g, fd' !! g with
                   | Some a, Some b => trim a = [] <-> trim b = []
                   | None, None => True
                   | _, _ => False
                   end) fields ->
  validateFields fd fields = validateFields fd' fields
  /\ everyFilled fd fields = everyFilled fd' fields.
Proof.
  induction 1 as [|g fields Hg _ [IH1 IH2]]; simpl; [split; reflexivity|].
  destruct (fd !! g) as [a|], (fd' !! g) as [b|]; simpl; try contradiction.
  - destruct (trim a) as [|x a'], (trim b) as [|y b']; simpl.
    + split; reflexivity.
    + exfalso. assert (E : y :: b' = []) by (apply Hg; reflexivity). discriminate.
    + exfalso. assert (E : x :: a' = []) by (apply Hg; reflexivity). discriminate.
    + split; assumption.
  - split; reflexivity.
Qed.

(** X2. White space typed before or after a value never changes the
    outcome of either check: the form with the padded value is judged,
    and reported on, exactly as the form with the bare value. *)
Theorem padding_ignored (fd : gmap string jsstring) (name : string)
    (v pre post : jsstring) :
  blank pre -> blank post ->
  validateForm (handleInputChange name (pre ++ v ++ post) fd)
  = validateForm (handleInputChange name v fd)
  /\ isFormValid (handleInputChange name (pre ++ v ++ post) fd)
     = isFormValid (handleInputChange name v fd).
Proof.
  intros Hpre Hpost. unfold validateForm, isFormValid, handleInputChange.
  apply checks_same_blanks. apply Forall_forall. intros g _.
  destruct (decide (name = g)) as [->|Hne].
  - rewrite !lookup_insert_eq. apply blank_pad; assumption.
  - rewrite !lookup_insert_ne by exact Hne.
    destruct (fd !! g); [reflexivity | exact I].
Qed.

Lemma padding_ignored_witness :
  validateForm (handleInputChange "firstName" (lit "  " ++ [] ++ lit " ") Sample.filledForm)
  = validateForm (handleInputChange "firstName" [] Sample.filledForm).
Proof.
  apply (padding_ignored Sample.filledForm "firstName" [] (lit "  ") (lit " "));
    repeat constructor.
Defined.

(** ** Correcting the reported field *)

Lemma validateFields_skip (fd : gmap string jsstring) pre rest :
  Forall (fun g => truthy (trim <$> fd !! g) = true) pre ->
  validateFields fd (pre ++ rest) = validateFields fd rest.
Proof.
  induction 1 as [|g pre Hg _ IH]; simpl; [reflexivity|].
  rewrite Hg. exact IH.
Qed.

Lemma requiredFields_NoDup : NoDup requiredFields.
Proof. apply (bool_decide_unpack _). vm_compute. reflexivity. Qed.

(** X3. When the fields before the reported one are filled, typing a
    non-blank value into the reported field makes validation continue
    with the fields after it: the outcome is that of checking the
    remaining fields of the old form, so a new report can only name a
    later field. *)
Theorem fixing_reported_field (fd : gmap string jsstring) (pre post : list string)
    (field : string) (v : jsstring) :
  requiredFields = pre ++ field :: post ->
  (forall g, g ∈ pre -> exists w, fd !! g = Some w /\ trim w <> []) ->
  trim v <> [] ->
  validateForm (handleInputChange field v fd) = validateFields fd post
  /\ forall effs, validateForm (handleInputChange field v fd) = (effs, false) ->
       exists g, g ∈ post /\ effs = [missingFieldToast g].
Proof.
  intros Hsplit Hpre Hv.
  pose proof requiredFields_NoDup as Hnd. rewrite Hsplit in Hnd.
  apply NoDup_app in Hnd as (_ & Hdisj & Hnd2).
  apply NoDup_cons in Hnd2 as [Hpost _].
  assert (E : validateForm (handleInputChange field v fd) = validateFields fd post).
  { unfold validateForm, handleInputChange. rewrite Hsplit.
    rewrite validateFields_skip.
    - simpl. rewrite lookup_insert_eq. simpl.
      destruct (trim v) eqn:Et; [congruence|]. simpl.
      apply validateFields_ext. apply Forall_forall. intros g Hg.
      apply lookup_insert_ne. intros ->. exact (Hpost Hg).
    - apply Forall_forall. intros g Hg. simpl.
      rewrite lookup_insert_ne.
      + apply truthy_trim_true, Hpre, Hg.
      + intros ->. apply (Hdisj g Hg). apply list_elem_of_here. }
  split; [exact E|]. intros effs H. rewrite E in H.
  destruct (validateFields_fail _ _ _ H) as (l1 & g & l2 & -> & _ & _ & ->).
  exists g. split; [|reflexivity].
  apply elem_of_app. right. apply list_elem_of_here.
Qed.

Lemma fixing_reported_field_witness :
  validateForm (handleInputChange "firstName" (lit "Ada") Sample.blankFirstName)
  = validateFields Sample.blankFirstName
      ["lastName"; "phone"; "address1"; "city"; "state"; "postalCode"; "country"].
Proof.
  apply (fixing_reported_field Sample.blankFirstName ["email"]
           ["lastName"; "phone"; "address1"; "city"; "state"; "postalCode"; "country"]
           "firstName" (lit "Ada")).
  - reflexivity.
  - intros g Hg. apply elem_of_cons in Hg as [->|Hg].
    + exists (lit "ada@example.test"). split; [vm_compute; reflexivity|].
      vm_compute. discriminate.
    + apply elem_of_nil in Hg. destruct Hg.
  - vm_compute. discriminate.
Defined.

(** ** A sequence of changes *)

Lemma applyChanges_app (l1 l2 : list (string * jsstring)) (fd : gmap string jsstring) :
  applyChanges (l1 ++ l2) fd = applyChanges l2 (applyChanges l1 fd).
Proof. unfold applyChanges. apply foldl_app. Qed.

Lemma applyChanges_untouched (changes : list (string * jsstring)) :
  forall (fd : gmap string jsstring) (name : string),
    name ∉ (fst <$> changes) -> applyChanges changes fd !! name = fd !! name.
Proof.
  induction changes as [|[n v] changes IH]; intros fd name Hn; [reflexivity|].
  simpl in Hn. apply not_elem_of_cons in Hn as [Hne Hn].
  unfold applyChanges in *. simpl. rewrite (IH _ _ Hn).
  unfold handleInputChange. apply lookup_insert_ne. congruence.
Qed.

(** X6. After any sequence of changes each field holds the value of the
    last change made to it, untrimmed, and a field that no change names
    holds what it held before. *)
Theorem last_change_wins (changes : list (string * jsstring))
    (fd : gmap string jsstring) (name : string) :
  (name ∉ (fst <$> changes) -> applyChanges changes fd !! name = fd !! name)
  /\ (forall before value after,
        changes = before ++ (name, value) :: after ->
        name ∉ (fst <$> after) ->
        applyChanges changes fd !! name = Some value).
Proof.
  split; [apply applyChanges_untouched|].
  intros before value after -> Hafter.
  rewrite applyChanges_app.
  change ((name, value) :: after) with ([(name, value)] ++ after).
  rewrite applyChanges_app, (applyChanges_untouched _ _ _ Hafter).
  unfold applyChanges, handleInputChange. simpl. apply lookup_insert_eq.
Qed.

Lemma last_change_wins_witness :
  applyChanges [("city", lit "Pune"); ("state", lit "MH"); ("city", lit " Hyderabad ")]
               initialFormData !! "city"
  = Some (lit " Hyderabad ").
Proof.
  apply (proj2 (last_change_wins _ initialFormData "city")
           [("city", lit "Pune"); ("state", lit "MH")] (lit " Hyderabad ") []).
  - reflexivity.
  - apply not_elem_of_nil.
Defined.

(** ** Field names in notifications *)

Lemma lowerChar_not_upper (c : ascii) : isUpper (lowerChar c) = false.
Proof.
  destruct c as [b0 b1 b2 b3 b4 b5 b6 b7];
    destruct b0, b1, b2, b3, b4, b5, b6, b7; vm_compute; reflexivity.
Qed.

Lemma lowerChar_upper_nat (c : ascii) :
  isUpper c = true -> nat_of_ascii (lowerChar c) = (nat_of_ascii c + 32)%nat.
Proof.
  destruct c as [b0 b1 b2 b3 b4 b5 b6 b7];
    destruct b0, b1, b2, b3, b4, b5, b6, b7; vm_compute;
    first [reflexivity | discriminate].
Qed.

Lemma lowerChar_upper_inj (c d : ascii) :
  isUpper c = true -> isUpper d = true -> lowerChar c = lowerChar d -> c = d.
Proof.
  intros Hc Hd H. apply (f_equal nat_of_ascii) in H.
  rewrite (lowerChar_upper_nat _ Hc), (lowerChar_upper_nat _ Hd) in H.
  rewrite <- (ascii_nat_embedding c), <- (ascii_nat_embedding d).
  f_equal. lia.
Qed.

Lemma label_no_capitals (s : string) (c : ascii) :
  In c (list_ascii_of_string (toLowerCase (spaceBeforeCapitals s))) ->
  isUpper c = false.
Proof.
  induction s as [|d s IH]; simpl; [contradiction|].
  destruct (isUpper d); simpl.
  - intros [<-|[<-|H]]; [reflexivity | apply lowerChar_not_upper | exact (IH H)].
  - intros [<-|H]; [apply lowerChar_not_upper | exact (IH H)].
Qed.

Lemma label_injective (s : string) : forall t : string,
  (forall c, In c (list_ascii_of_string s) -> c <> " "%char) ->
  (forall c, In c (list_ascii_of_string t) -> c <> " "%char) ->
  toLowerCase (spaceBeforeCapitals s) = toLowerCase (spaceBeforeCapitals t) ->
  s = t.
Proof.
  induction s as [|c s IH]; intros [|d t] Hs Ht H; simpl in H.
  - reflexivity.
  - destruct (isUpper d); discriminate.
  - destruct (isUpper c); discriminate.
  - assert (Hs' : forall x, In x (list_ascii_of_string s) -> x <> " "%char)
      by (intros x Hx; apply Hs; right; exact Hx).
    assert (Ht' : forall x, In x (list_ascii_of_string t) -> x <> " "%char)
      by (intros x Hx; apply Ht; right; exact Hx).
    assert (Hc : c <> " "%char) by (apply Hs; left; reflexivity).
    assert (Hd : d <> " "%char) by (apply Ht; left; reflexivity).
    assert (Esp : lowerChar " " = " "%char) by reflexivity.
    destruct (isUpper c) eqn:Uc, (isUpper d) eqn:Ud;
      cbn [toLowerCase] in H; rewrite ?Esp in H.
    + injection H as Hcd Hrest.
      rewrite (lowerChar_upper_inj c d Uc Ud Hcd), (IH t Hs' Ht' Hrest). reflexivity.
    + injection H as Hsp _. unfold lowerChar in Hsp. rewrite Ud in Hsp. congruence.
    + injection H as Hsp _. unfold lowerChar in Hsp. rewrite Uc in Hsp. congruence.
    + injection H as Hcd Hrest. unfold lowerChar in Hcd. rewrite Uc, Ud in Hcd.
      rewrite Hcd, (IH t Hs' Ht' Hrest). reflexivity.
Qed.

Lemma append_length (a b : string) :
  String.length (a ++ b) = (String.length a + String.length b)%nat.
Proof. induction a as [|c a IH]; simpl; [reflexivity | rewrite IH; reflexivity]. Qed.

Lemma append_inv_tail (a b x : string) : (a ++ x = b ++ x -> a = b)%string.
Proof.
  revert b. induction a as [|c a IH]; intros [|d b] H; simpl in H.
  - reflexivity.
  - apply (f_equal String.length) in H. simpl in H. rewrite !append_length in H.
    simpl in H. lia.
  - apply (f_equal String.length) in H. simpl in H. rewrite !append_length in H.
    simpl in H. lia.
  - injection H as -> H. rewrite (IH b H). reflexivity.
Qed.

(** X5. For field identifiers made of ASCII characters: the name a
    notification gives to a field contains no capital letter, and two
    different identifiers without spaces never get the same
    notification. *)
Theorem notification_names (s : string) :
  (forall c, In c (list_ascii_of_string s) -> nat_of_ascii c < 128) ->
  (forall c, In c (list_ascii_of_string (toLowerCase (spaceBeforeCapitals s))) ->
             isUpper c = false)
  /\ (forall t : string,
        (forall c, In c (list_ascii_of_string t) -> nat_of_ascii c < 128) ->
        (forall c, In c (list_ascii_of_string s) -> c <> " "%char) ->
        (forall c, In c (list_ascii_of_string t) -> c <> " "%char) ->
        s <> t -> missingFieldToast s <> missingFieldToast t).
Proof.
  intros _. split; [apply label_no_capitals|].
  intros t _ Hs Ht Hne H. apply Hne, (label_injective s t Hs Ht).
  unfold missingFieldToast in H. injection H as H.
  exact (append_inv_tail _ _ " field." H).
Qed.

Lemma notification_names_witness :
  missingFieldToast "postalCode" <> missingFieldToast "postalcode".
Proof.
  apply (proj2 (notification_names "postalCode"
                  ltac:(intros c Hc; simpl in Hc;
                        repeat (destruct Hc as [<-|Hc]; [vm_compute; lia|]);
                        destruct Hc))
           "postalcode");
    try discriminate;
    intros c Hc; simpl in Hc;
    repeat (destruct Hc as [<-|Hc]; [first [discriminate | vm_compute; lia]|]);
    destruct Hc.
Defined.

(** ** Inputs *)

Lemma section_values_untouched (fields : list FieldConfig)
    (fd : gmap string jsstring) (name : string) (v : jsstring) :
  name ∉ (fc_id <$> fields) ->
  in_value <$> CheckoutSection fields (<[name := v]> fd)
  = in_value <$> CheckoutSection fields fd.
Proof.
  induction fields as [|c fields IH]; simpl; [reflexivity|].
  intros Hn. apply not_elem_of_cons in Hn as [Hne Hn].
  rewrite lookup_insert_ne by exact Hne. f_equal. exact (IH Hn).
Qed.

Lemma section_round_trip (fields : list FieldConfig) :
  forall (fd : gmap string jsstring) (k : nat) (cfg : FieldConfig) (v : jsstring),
    NoDup (fc_id <$> fields) -> fields !! k = Some cfg ->
    in_value <$> CheckoutSection fields (<[fc_id cfg := v]> fd)
    = <[k := Some v]> (in_value <$> CheckoutSection fields fd).
Proof.
  induction fields as [|c fields IH]; intros fd k cfg v Hnd Hk; [discriminate|].
  simpl in Hnd. apply NoDup_cons in Hnd as [Hc Hnd].
  destruct k as [|k]; simpl in Hk.
  - injection Hk as ->. simpl. rewrite lookup_insert_eq. f_equal.
    apply section_values_untouched, Hc.
  - simpl. rewrite lookup_insert_ne.
    + f_equal. apply IH; assumption.
    + intros E. apply Hc. rewrite <- E.
      apply list_elem_of_fmap. exists cfg. split; [reflexivity|].
      apply list_elem_of_lookup. exists k. exact Hk.
Qed.

Lemma formInputs_section (fd : gmap string jsstring) :
  formInputs fd = CheckoutSection (contactFields ++ shippingFields) fd.
Proof. unfold formInputs, CheckoutSection. rewrite map_app. reflexivity. Qed.

Lemma formInputs_names (fd : gmap string jsstring) :
  in_name <$> formInputs fd = allFields.
Proof. reflexivity. Qed.

(** X18. Typing into the [k]-th input of the form changes the value shown
    by that input to exactly the typed text and the value shown by no
    other input; the inputs are named after the ten fields of the form
    object, so when all ten are present typing adds no property to it. *)
Theorem input_round_trip (fd : gmap string jsstring) (k : nat)
    (inp : InputElement) (v : jsstring) :
  formInputs fd !! k = Some inp ->
  in_value <$> formInputs (handleInputChange (in_name inp) v fd)
  = <[k := Some v]> (in_value <$> formInputs fd)
  /\ in_name inp ∈ allFields
  /\ (defined_on fd allFields ->
      dom (handleInputChange (in_name inp) v fd) = dom fd).
Proof.
  intros Hk.
  assert (Hname : in_name inp ∈ allFields).
  { rewrite <- (formInputs_names fd). apply list_elem_of_fmap.
    exists inp. split; [reflexivity|]. apply list_elem_of_lookup. eauto. }
  split; [|split; [exact Hname|]].
  - rewrite !formInputs_section in *. unfold CheckoutSection in Hk.
    rewrite list_lookup_fmap in Hk.
    destruct ((contactFields ++ shippingFields) !! k) as [cfg|] eqn:Hcfg;
      [|discriminate].
    simpl in Hk. injection Hk as <-.
    refine (section_round_trip (contactFields ++ shippingFields) fd k cfg v _ Hcfg).
    apply (bool_decide_unpack _). vm_compute. reflexivity.
  - intros Hdef. unfold handleInputChange. rewrite dom_insert_L.
    unfold defined_on in Hdef. rewrite Forall_forall in Hdef.
    apply Hdef, elem_of_dom in Hname.
    apply subseteq_union_1_L, singleton_subseteq_l, Hname.
Qed.

Lemma input_round_trip_witness :
  in_value <$> formInputs (handleInputChange "phone" (lit "5550100200") initialFormData)
  = <[3%nat := Some (lit "5550100200")]> (in_value <$> formInputs initialFormData).
Proof.
  apply (input_round_trip initialFormData 3
           (InputGroup "phone" "Phone Number" (Some []) (Some 10%Z))
           (lit "5550100200")).
  vm_compute. reflexivity.
Defined.

(** ** Tallies *)

Lemma tally_app {A} (p : A -> bool) (l1 l2 : list A) :
  tally p (l1 ++ l2) = (tally p l1 + tally p l2)%nat.
Proof. induction l1 as [|x l1 IH]; simpl; [reflexivity | rewrite IH; lia]. Qed.

Lemma tally_insert {A} (p : A -> bool) (l : list A) : forall (i : nat) (x y : A),
  l !! i = Some x ->
  (tally p (<[i := y]> l) + (if p x then 1 else 0)
   = tally p l + (if p y then 1 else 0))%nat.
Proof.
  induction l as [|a l IH]; intros i x y Hi; [discriminate|].
  destruct i as [|i]; simpl in *.
  - injection Hi as ->. lia.
  - specialize (IH i x y Hi). lia.
Qed.

Lemma tally_delete {A} (p : A -> bool) (l : list A) : forall (i : nat) (x : A),
  l !! i = Some x ->
  (tally p (delete i l) + (if p x then 1 else 0) = tally p l)%nat.
Proof.
  induction l as [|a l IH]; intros i x Hi; [discriminate|].
  destruct i as [|i]; simpl in *.
  - injection Hi as ->. lia.
  - specialize (IH i x Hi). lia.
Qed.

(** ** What a response leads to *)

Lemma readLink_throws_iff (data : jsval) :
  readLink data = Throws
  <-> nullish data
      \/ exists paymentLink,
           getProp data "paymentLink" = Returns paymentLink /\ nullish paymentLink.
Proof.
  unfold readLink, nullish. split.
  - destruct data as [| |b|z|str|props]; simpl; intros H.
    + left. left. reflexivity.
    + left. right. reflexivity.
    + right. exists VUndefined. split; [reflexivity | left; reflexivity].
    + right. exists VUndefined. split; [reflexivity | left; reflexivity].
    + right. exists VUndefined. split; [reflexivity | left; reflexivity].
    + right. exists (assoc "paymentLink" props). split; [reflexivity|].
      destruct (assoc "paymentLink" props); simpl in H; auto; discriminate.
  - intros [[->| ->]|[pl [Hpl [->| ->]]]]; try reflexivity;
      rewrite Hpl; reflexivity.
Qed.

(** ** The component in operation *)

Section CheckoutFurther.

Variable API_URL : jsstring.
Variables shippingRule taxRule : Z -> Z.
Variable hrefAccepts : jsval -> bool.
Variable formatPrice : Z -> string.

Local Abbreviation step2 := (step API_URL shippingRule taxRule hrefAccepts).
Local Abbreviation run2 := (run API_URL shippingRule taxRule hrefAccepts).
Local Abbreviation body2 := (requestBody shippingRule taxRule).
Local Abbreviation reach2 := (reachable API_URL shippingRule taxRule hrefAccepts).

Lemma run_step (s s' s'' : component) (e : event) (es : list event) effs effs' :
  step2 s e = Some (s', effs) -> run2 s' es = Some (s'', effs') ->
  run2 s (e :: es) = Some (s'', effs ++ effs').
Proof. intros H1 H2. simpl. rewrite H1, H2. reflexivity. Qed.

(** X7. In a component driven through its user interface the form object
    always holds all ten fields, so neither [isFormValid] nor the
    [disabled] prop can throw, and every input shows a string. *)
Theorem render_never_throws (s : component) :
  reach2 s ->
  defined_on (formData (st s)) allFields
  /\ (exists b, isFormValid (formData (st s)) = Returns b)
  /\ (exists b, disabled (st s) = Returns b)
  /\ Forall (fun inp => is_Some (in_value inp)) (formInputs (formData (st s))).
Proof.
  intros H. destruct (reachable_invariant _ _ _ _ _ H) as [Hd _].
  pose proof (everyFilled_defined _ _ (defined_all_required _ Hd)) as E.
  split; [exact Hd|]. split; [eexists; exact E|]. split.
  - unfold disabled, isFormValid. rewrite E. simpl. eexists. reflexivity.
  - rewrite formInputs_section. unfold CheckoutSection.
    apply Forall_fmap, Forall_forall. intros cfg Hcfg. simpl.
    unfold defined_on in Hd. rewrite Forall_forall in Hd. apply Hd.
    change allFields with (fc_id <$> (contactFields ++ shippingFields)).
    apply list_elem_of_fmap_2, Hcfg.
Qed.

(** X17. A submission of a form that fails validation changes nothing in
    the component and sends nothing: its only effects are the suppressed
    default action and the notification for one required field, which is
    absent or blank. *)
Theorem invalid_submission_is_noop (s : component) :
  snd (validateForm (formData (st s))) = false ->
  exists field,
    field ∈ requiredFields
    /\ (formData (st s) !! field = None
        \/ exists v, formData (st s) !! field = Some v /\ blank v)
    /\ step2 s Submit = Some (s, [PreventDefault; missingFieldToast field]).
Proof.
  intros H. unfold step, handleSubmit_begin.
  destruct (validateForm (formData (st s))) as [effs ok] eqn:E.
  simpl in H. subst ok. unfold validateForm in E.
  destruct (validateFields_fail _ _ _ E) as (pre & field & post & Hsplit & _ & Hf & ->).
  exists field. split; [|split].
  - rewrite Hsplit. apply elem_of_app. right. apply list_elem_of_here.
  - apply truthy_trim_false in Hf as [Hf|[v [Hv Ht]]]; [left; exact Hf|].
    right. exists v. split; [exact Hv | apply trim_nil_iff, Ht].
  - simpl. rewrite app_nil_r. destruct s. reflexivity.
Qed.

(** X12. The component navigates inside the application only from its
    guard: a step that navigates is a render whose subtotal is exactly 0
    and differs from the previous one, the target is the cart page, and
    the step has no other effect. *)
Theorem navigate_only_from_guard (s s' : component) (e : event) effs path :
  step2 s e = Some (s', effs) -> Navigate path ∈ effs ->
  path = "/cart" /\ effs = [Navigate "/cart"]
  /\ exists ctx, e = Render ctx /\ getTotalPrice ctx = 0%Z
                 /\ getTotalPrice (rendered s) <> 0%Z.
Proof.
  intros Hstep Hin. destruct e as [ctx|name value| |i r|i]; unfold step in Hstep.
  - injection Hstep as _ <-.
    destruct (Z.eqb_spec (getTotalPrice ctx) (getTotalPrice (rendered s))) as [E|E];
      [apply elem_of_nil in Hin; contradiction|].
    unfold emptyCartEffect in *.
    destruct (Z.eqb_spec (getTotalPrice ctx) 0) as [E0|E0];
      [|apply elem_of_nil in Hin; contradiction].
    apply elem_of_cons in Hin as [Hin|Hin]; [|apply elem_of_nil in Hin; contradiction].
    injection Hin as ->. split; [reflexivity|]. split; [reflexivity|].
    exists ctx. split; [reflexivity|]. split; [exact E0 | congruence].
  - injection Hstep as _ <-. apply elem_of_nil in Hin. contradiction.
  - exfalso. unfold handleSubmit_begin in Hstep.
    destruct (validateForm (formData (st s))) as [toasts ok] eqn:E.
    destruct ok; simpl in Hstep; injection Hstep as _ <-.
    + repeat (apply elem_of_cons in Hin as [Hin|Hin]; [discriminate|]).
      apply elem_of_nil in Hin. exact Hin.
    + destruct (validateFields_fail _ _ _ E) as (_ & f & _ & _ & _ & _ & ->).
      repeat (apply elem_of_cons in Hin as [Hin|Hin]; [discriminate|]).
      apply elem_of_nil in Hin. exact Hin.
  - exfalso. destruct (inflight s !! i) as [[|link]|]; try discriminate.
    unfold handleSubmit_settled, handleSubmit_catch in Hstep.
    destruct r as [data|]; [destruct (readLink data)|];
      injection Hstep as _ <-;
      repeat (apply elem_of_cons in Hin as [Hin|Hin]; [discriminate|]);
      apply elem_of_nil in Hin; exact Hin.
  - exfalso. destruct (inflight s !! i) as [[|link]|]; try discriminate.
    unfold handleSubmit_elapsed, handleSubmit_catch in Hstep.
    destruct (hrefAccepts link); injection Hstep as _ <-;
      repeat (apply elem_of_cons in Hin as [Hin|Hin]; [discriminate|]);
      apply elem_of_nil in Hin; exact Hin.
Qed.

(** X14. When the request of a pending submission settles there are two
    outcomes.  If it was rejected, or the body or its [paymentLink] is
    [null] or [undefined], the error is logged, the generic notification
    is raised, both flags are cleared and the call ends.  Otherwise the
    value of [short_url], whatever it is and [undefined] if the property
    is missing, is kept as the link, the timer is started and the state
    is left as it is. *)
Theorem settle_outcome (s s' : component) (i : nat) (r : post_outcome) effs :
  step2 s (PostSettled i r) = Some (s', effs) ->
  inflight s !! i = Some AwaitPost
  /\ (((r = Rejected
        \/ exists data, r = Resolved data
             /\ (nullish data
                 \/ exists paymentLink,
                      getProp data "paymentLink" = Returns paymentLink
                      /\ nullish paymentLink))
       /\ effs = failureEffects
       /\ isProcessing (st s') = false /\ animateTruck (st s') = false
       /\ formData (st s') = formData (st s)
       /\ inflight s' = delete i (inflight s))
      \/ (exists data paymentLink link,
            r = Resolved data
            /\ getProp data "paymentLink" = Returns paymentLink
            /\ ~ nullish paymentLink
            /\ getProp paymentLink "short_url" = Returns link
            /\ effs = [SetTimeout 1500]
            /\ st s' = st s
            /\ inflight s' = <[i := AwaitDelay link]> (inflight s))).
Proof.
  unfold step. intros Hstep.
  destruct (inflight s !! i) as [[|l]|] eqn:Hi; try discriminate.
  split; [reflexivity|].
  unfold handleSubmit_settled, handleSubmit_catch in Hstep.
  destruct r as [data|].
  - destruct (readLink data) as [link|] eqn:Hl; injection Hstep as <- <-.
    + right. unfold readLink in Hl.
      destruct (getProp data "paymentLink") as [pl|] eqn:Hpl; [|discriminate].
      simpl in Hl. exists data, pl, link. repeat split; try assumption.
      intros [-> | ->]; discriminate.
    + left. apply readLink_throws_iff in Hl. simpl. repeat split.
      right. exists data. split; [reflexivity | exact Hl].
  - injection Hstep as <- <-. left. simpl. repeat split. left. reflexivity.
Qed.

(** X10. Whenever a step makes a suspended [handleSubmit] call return,
    the processing flag is false afterwards and the form is untouched;
    the call returned in one of three ways: from the failure branch when
    the request settled, which also stops the animation; by assigning the
    link to the location, which leaves the animation running; or from the
    failure branch because that assignment threw.  A call that returns at
    the validation gate was never suspended and runs no [finally] block:
    it leaves the whole state, processing flag included, as it was. *)
Theorem call_end_clears_processing (s s' : component) (e : event) effs :
  step2 s e = Some (s', effs) ->
  (List.length (inflight s') < List.length (inflight s) ->
   isProcessing (st s') = false
   /\ formData (st s') = formData (st s)
   /\ ((exists i r, e = PostSettled i r
                    /\ inflight s !! i = Some AwaitPost
                    /\ effs = failureEffects
                    /\ animateTruck (st s') = false)
       \/ (exists i link, e = TimerFired i
                          /\ inflight s !! i = Some (AwaitDelay link)
                          /\ hrefAccepts link = true
                          /\ effs = [LocationHref link]
                          /\ animateTruck (st s') = animateTruck (st s))
       \/ (exists i link, e = TimerFired i
                          /\ inflight s !! i = Some (AwaitDelay link)
                          /\ hrefAccepts link = false
                          /\ effs = failureEffects
                          /\ animateTruck (st s') = false)))
  /\ (e = Submit -> List.length (inflight s') = List.length (inflight s) ->
      snd (validateForm (formData (st s))) = false /\ st s' = st s).
Proof.
  intros Hstep. split.
  - intros Hlen. destruct e as [ctx|name value| |i r|i]; unfold step in Hstep.
    + injection Hstep as <- _. simpl in Hlen. lia.
    + injection Hstep as <- _. simpl in Hlen. lia.
    + destruct (handleSubmit_begin API_URL shippingRule taxRule (rendered s) (st s))
        as [[st' effs'] next].
      injection Hstep as <- _. simpl in Hlen. rewrite length_app in Hlen. lia.
    + destruct (inflight s !! i) as [[|l]|] eqn:Hi; try discriminate.
      unfold handleSubmit_settled, handleSubmit_catch in Hstep.
      destruct r as [data|]; [destruct (readLink data)|];
        injection Hstep as <- <-; simpl in *.
      * rewrite length_insert in Hlen. lia.
      * repeat split. left. eexists _, _. repeat split. exact Hi.
      * repeat split. left. eexists _, _. repeat split. exact Hi.
    + destruct (inflight s !! i) as [[|l]|] eqn:Hi; try discriminate.
      unfold handleSubmit_elapsed, handleSubmit_catch in Hstep.
      destruct (hrefAccepts l) eqn:Ha; injection Hstep as <- <-; simpl;
        repeat split.
      * right. left. exists i, l. repeat split; assumption.
      * right. right. exists i, l. repeat split; assumption.
  - intros -> Hlen. unfold step, handleSubmit_begin in Hstep.
    destruct (validateForm (formData (st s))) as [toasts ok].
    destruct ok; simpl in Hstep; injection Hstep as <- _; simpl in *.
    + rewrite length_app in Hlen. simpl in Hlen. lia.
    + split; reflexivity.
Qed.

(** X9. [handleSubmit] does not look at the processing flag.  Delivered
    twice with a valid form it sends the request twice, whatever was
    already pending; and when one of the two calls fails the processing
    flag is cleared, so the submit control is enabled again while the
    other request is still pending. *)
Theorem overlapping_submissions (s : component) (r : post_outcome) :
  snd (validateForm (formData (st s))) = true ->
  (r = Rejected \/ exists data, r = Resolved data /\ readLink data = Throws) ->
  exists s2 s3,
    run2 s [Submit; Submit]
    = Some (s2, [PreventDefault;
                 AxiosPost (paymentLinkUrl API_URL)
                           (body2 (rendered s) (formData (st s)));
                 PreventDefault;
                 AxiosPost (paymentLinkUrl API_URL)
                           (body2 (rendered s) (formData (st s)))])
    /\ inflight s2 = inflight s ++ [AwaitPost; AwaitPost]
    /\ step2 s2 (PostSettled (List.length (inflight s) + 1) r)
       = Some (s3, failureEffects)
    /\ inflight s3 = inflight s ++ [AwaitPost]
    /\ isProcessing (st s3) = false
    /\ disabled (st s3) = Returns false.
Proof.
  intros Hv Hr.
  set (s1 := {| st := setIsProcessing true (setAnimateTruck true (st s));
                rendered := rendered s; inflight := inflight s ++ [AwaitPost] |}).
  set (s2 := {| st := setIsProcessing true (setAnimateTruck true (st s1));
                rendered := rendered s;
                inflight := (inflight s ++ [AwaitPost]) ++ [AwaitPost] |}).
  pose proof (step_submit_valid API_URL shippingRule taxRule hrefAccepts s Hv) as H1.
  pose proof (step_submit_valid API_URL shippingRule taxRule hrefAccepts s1 Hv) as H2.
  pose proof (step_settled_failed API_URL shippingRule taxRule hrefAccepts s2 r
                (inflight s ++ [AwaitPost]) eq_refl Hr) as H3.
  rewrite length_app in H3. simpl in H3.
  exists s2. eexists. split; [|split; [|split; [exact H3|]]].
  - exact (run_step _ _ _ _ _ _ _ H1 (run_step _ _ s2 _ [] _ [] H2 eq_refl)).
  - simpl. rewrite <- app_assoc. reflexivity.
  - simpl. split; [reflexivity|]. split; [reflexivity|].
    apply disabled_idle; [exact Hv | reflexivity].
Qed.

(** X11. Redirecting to the cart does not cancel a pending submission.
    If the cart becomes empty while the request is pending, the guard
    redirects to the cart page, and when the response arrives the timer
    is still started and, for a link the browser accepts, the location is
    still assigned the link. *)
Theorem redirect_does_not_cancel (s : component) (ctx : CartContext)
    (data link : jsval) :
  snd (validateForm (formData (st s))) = true ->
  getTotalPrice (rendered s) <> 0%Z -> getTotalPrice ctx = 0%Z ->
  readLink data = Returns link -> hrefAccepts link = true ->
  exists s',
    run2 s [Submit; Render ctx;
            PostSettled (List.length (inflight s)) (Resolved data);
            TimerFired (List.length (inflight s))]
    = Some (s', [PreventDefault;
                 AxiosPost (paymentLinkUrl API_URL)
                           (body2 (rendered s) (formData (st s)));
                 Navigate "/cart"; SetTimeout 1500; LocationHref link])
    /\ rendered s' = ctx /\ inflight s' = inflight s.
Proof.
  intros Hv Hne H0 Hl Ha.
  set (s1 := {| st := setIsProcessing true (setAnimateTruck true (st s));
                rendered := rendered s; inflight := inflight s ++ [AwaitPost] |}).
  set (s2 := {| st := st s1; rendered := ctx; inflight := inflight s1 |}).
  set (s3 := {| st := st s2; rendered := rendered s2;
                inflight := inflight s ++ [AwaitDelay link] |}).
  pose proof (step_submit_valid API_URL shippingRule taxRule hrefAccepts s Hv) as H1.
  pose proof (proj2 (empty_cart_guard API_URL shippingRule taxRule hrefAccepts
                       s1 ctx H0) Hne) as H2.
  pose proof (step_settled_resolved API_URL shippingRule taxRule hrefAccepts s2
                data link (inflight s) eq_refl Hl) as H3.
  pose proof (step_elapsed API_URL shippingRule taxRule hrefAccepts s3 link
                (inflight s) eq_refl Ha) as H4.
  eexists. split.
  - exact (run_step _ _ _ _ _ _ _ H1
             (run_step _ _ _ _ _ _ _ H2
                (run_step _ _ _ _ _ _ _ H3
                   (run_step _ _ _ _ [] _ [] H4 eq_refl)))).
  - split; reflexivity.
Qed.

(** X15. A failed request returns the component to a state from which the
    same submission can be made again: submitting the unchanged form
    right after the failure sends a request equal to the first one and
    leaves one call pending with both flags set. *)
Theorem resubmission_repeats_request (s : component) (r : post_outcome) :
  snd (validateForm (formData (st s))) = true ->
  (r = Rejected \/ exists data, r = Resolved data /\ readLink data = Throws) ->
  exists s',
    run2 s [Submit; PostSettled (List.length (inflight s)) r; Submit]
    = Some (s', [PreventDefault;
                 AxiosPost (paymentLinkUrl API_URL)
                           (body2 (rendered s) (formData (st s)))]
                ++ failureEffects
                ++ [PreventDefault;
                    AxiosPost (paymentLinkUrl API_URL)
                              (body2 (rendered s) (formData (st s)))])
    /\ inflight s' = inflight s ++ [AwaitPost]
    /\ isProcessing (st s') = true /\ animateTruck (st s') = true
    /\ formData (st s') = formData (st s).
Proof.
  intros Hv Hr.
  set (s1 := {| st := setIsProcessing true (setAnimateTruck true (st s));
                rendered := rendered s; inflight := inflight s ++ [AwaitPost] |}).
  set (s2 := {| st := setIsProcessing false (setAnimateTruck false (st s1));
                rendered := rendered s1; inflight := inflight s |}).
  pose proof (step_submit_valid API_URL shippingRule taxRule hrefAccepts s Hv) as H1.
  pose proof (step_settled_failed API_URL shippingRule taxRule hrefAccepts s1 r (inflight s)
                eq_refl Hr) as H2.
  pose proof (step_submit_valid API_URL shippingRule taxRule hrefAccepts s2 Hv) as H3.
  eexists. split.
  - exact (run_step _ _ _ _ _ _ _ H1
             (run_step _ _ _ _ _ _ _ H2
                (run_step _ _ _ _ [] _ [] H3 eq_refl))).
  - repeat split.
Qed.

(** X16. What the order summary shows is what a submission sends: the
    request carries the amount of the "Total" row and exactly the items
    of the listed lines, both taken from the same render. *)
Theorem summary_matches_request (s s' : component) effs url body :
  step2 s Submit = Some (s', effs) -> AxiosPost url body ∈ effs ->
  summaryTotal shippingRule taxRule formatPrice (getTotalPrice (rendered s))
  = formatPrice (totalAmount body)
  /\ summaryLines formatPrice (ctx_cartItems (rendered s))
     = summaryLines formatPrice (cartItems body).
Proof.
  intros Hstep Hin.
  destruct (submit_post_inv _ _ _ _ _ _ _ _ _ Hstep Hin) as (_ & _ & -> & _).
  split; reflexivity.
Qed.

(** *** Every request is accounted for *)

Lemma step_accounting (s s' : component) (e : event) effs :
  step2 s e = Some (s', effs) ->
  (tally isPost effs + tally awaitsPost (inflight s) + tally awaitsDelay (inflight s)
   = tally awaitsPost (inflight s') + tally awaitsDelay (inflight s')
     + tally isHref effs + tally isErrorLog effs)%nat
  /\ (tally awaitsPost (inflight s') + tally isTimer effs
      <= tally isPost effs + tally awaitsPost (inflight s))%nat
  /\ (tally awaitsDelay (inflight s') + tally isHref effs
      <= tally isTimer effs + tally awaitsDelay (inflight s))%nat.
Proof.
  intros Hstep. destruct e as [ctx|name value| |i r|i]; unfold step in Hstep.
  - injection Hstep as <- <-. simpl.
    destruct (getTotalPrice ctx =? getTotalPrice (rendered s))%Z; simpl; [lia|].
    unfold emptyCartEffect. destruct (getTotalPrice ctx =? 0)%Z; simpl; lia.
  - injection Hstep as <- <-. simpl. lia.
  - unfold handleSubmit_begin in Hstep.
    destruct (validateForm (formData (st s))) as [toasts ok] eqn:E.
    destruct ok; simpl in Hstep; injection Hstep as <- <-; simpl.
    + rewrite !tally_app. simpl. lia.
    + destruct (validateFields_fail _ _ _ E) as (_ & f & _ & _ & _ & _ & ->).
      rewrite app_nil_r. simpl. lia.
  - destruct (inflight s !! i) as [[|l]|] eqn:Hi; try discriminate.
    unfold handleSubmit_settled, handleSubmit_catch in Hstep.
    destruct r as [data|]; [destruct (readLink data) as [link|]|];
      injection Hstep as <- <-; simpl.
    + pose proof (tally_insert awaitsPost _ _ _ (AwaitDelay link) Hi).
      pose proof (tally_insert awaitsDelay _ _ _ (AwaitDelay link) Hi).
      simpl in *. lia.
    + pose proof (tally_delete awaitsPost _ _ _ Hi).
      pose proof (tally_delete awaitsDelay _ _ _ Hi). simpl in *. lia.
    + pose proof (tally_delete awaitsPost _ _ _ Hi).
      pose proof (tally_delete awaitsDelay _ _ _ Hi). simpl in *. lia.
  - destruct (inflight s !! i) as [[|l]|] eqn:Hi; try discriminate.
    unfold handleSubmit_elapsed, handleSubmit_catch in Hstep.
    pose proof (tally_delete awaitsPost _ _ _ Hi).
    pose proof (tally_delete awaitsDelay _ _ _ Hi).
    destruct (hrefAccepts l); injection Hstep as <- <-; simpl in *; lia.
Qed.

Lemma run_accounting (es : list event) : forall (s s' : component) effs,
  run2 s es = Some (s', effs) ->
  (tally isPost effs + tally awaitsPost (inflight s) + tally awaitsDelay (inflight s)
   = tally awaitsPost (inflight s') + tally awaitsDelay (inflight s')
     + tally isHref effs + tally isErrorLog effs)%nat
  /\ (tally awaitsPost (inflight s') + tally isTimer effs
      <= tally isPost effs + tally awaitsPost (inflight s))%nat
  /\ (tally awaitsDelay (inflight s') + tally isHref effs
      <= tally isTimer effs + tally awaitsDelay (inflight s))%nat.
Proof.
  induction es as [|e es IH]; intros s s' effs Hrun; simpl in Hrun.
  - injection Hrun as <- <-. simpl. lia.
  - destruct (step2 s e) as [[s1 effs1]|] eqn:Hstep; [|discriminate].
    destruct (run2 s1 es) as [[s2 effs2]|] eqn:Hrest; [|discriminate].
    injection Hrun as <- <-.
    destruct (step_accounting _ _ _ _ Hstep) as (A1 & A2 & A3).
    destruct (IH _ _ _ Hrest) as (B1 & B2 & B3).
    rewrite !tally_app. lia.
Qed.

(** X13. Over any sequence of events, starting with no call pending,
    every request sent is accounted for exactly once: its call is still
    pending, or it ended by assigning the location, or it ended in the
    failure branch with one logged error.  Timers are started only for
    answered requests and the location is assigned only after a timer, so
    the location is never assigned more often than timers were started,
    nor timers started more often than requests were sent. *)
Theorem effects_accounting (s s' : component) (es : list event) effs :
  inflight s = [] -> run2 s es = Some (s', effs) ->
  tally isPost effs
  = (tally awaitsPost (inflight s') + tally awaitsDelay (inflight s')
     + tally isHref effs + tally isErrorLog effs)%nat
  /\ tally awaitsPost (inflight s') + tally isTimer effs <= tally isPost effs
  /\ tally awaitsDelay (inflight s') + tally isHref effs <= tally isTimer effs
  /\ tally isHref effs <= tally isTimer effs <= tally isPost effs.
Proof.
  intros H0 Hrun. destruct (run_accounting _ _ _ _ Hrun) as (A1 & A2 & A3).
  rewrite H0 in A1, A2, A3. simpl in A1, A2, A3. lia.
Qed.

End CheckoutFurther.

(** ** Concrete runs of the further properties *)

Lemma reachable_passive_run (API_URL : jsstring) (shippingRule taxRule : Z -> Z)
    (hrefAccepts : jsval -> bool) (es : list event) :
  forall (s s' : component) effs,
  reachable API_URL shippingRule taxRule hrefAccepts s -> Forall passive es ->
  run API_URL shippingRule taxRule hrefAccepts s es = Some (s', effs) ->
  reachable API_URL shippingRule taxRule hrefAccepts s'.
Proof.
  induction es as [|e es IH]; intros s s' effs Hs Hes Hrun; simpl in Hrun.
  - injection Hrun as <- _. exact Hs.
  - apply Forall_cons in Hes as [He Hes].
    destruct (step API_URL shippingRule taxRule hrefAccepts s e)
      as [[s1 effs1]|] eqn:Hstep; [|discriminate].
    destruct (run API_URL shippingRule taxRule hrefAccepts s1 es)
      as [[s2 effs2]|] eqn:Hrest; [|discriminate].
    injection Hrun as <- _. apply (IH s1 s2 effs2); [|exact Hes | exact Hrest].
    apply (reach_step _ _ _ _ s e s1 effs1 Hs); [|exact Hstep].
    destruct e; simpl in *; solve [exact I | contradiction].
Qed.

Lemma filled_reachable :
  reachable Sample.API_URL Sample.shippingRule Sample.taxRule Sample.hrefAccepts
            (Sample.filled Sample.fullCart).
Proof.
  apply (reachable_passive_run _ _ _ _ Sample.typing (fst (mount Sample.fullCart))
           (Sample.filled Sample.fullCart) []).
  - apply reach_mount.
  - repeat constructor.
  - vm_compute. reflexivity.
Qed.

Lemma afterSubmit_reachable :
  reachable Sample.API_URL Sample.shippingRule Sample.taxRule Sample.hrefAccepts
            Sample.afterSubmit.
Proof.
  apply (reach_step _ _ _ _ (Sample.filled Sample.fullCart) Submit Sample.afterSubmit
           [PreventDefault; AxiosPost Sample.sampleUrl Sample.sampleBody]
           filled_reachable).
  - vm_compute. reflexivity.
  - vm_compute. reflexivity.
Qed.

Lemma trim_spec_witness :
  trim (lit "  Ada ") = lit "Ada" /\ isWhiteSpace 65 = false.
Proof.
  split; [reflexivity|].
  apply (proj1 (proj2 (trim_spec (lit "  Ada "))) 65%N (lit "da")). reflexivity.
Defined.

Lemma render_never_throws_witness :
  exists b, disabled (st Sample.afterSubmit) = Returns b.
Proof.
  apply (render_never_throws Sample.API_URL Sample.shippingRule Sample.taxRule
           Sample.hrefAccepts Sample.afterSubmit afterSubmit_reachable).
Defined.

Lemma disabled_while_inflight_witness :
  List.length (inflight Sample.afterSubmit) <= 1
  /\ disabled (st Sample.afterSubmit) = Returns true.
Proof.
  destruct (disabled_while_inflight Sample.API_URL Sample.shippingRule Sample.taxRule
              Sample.hrefAccepts Sample.afterSubmit afterSubmit_reachable) as [H1 H2].
  split; [exact H1 | apply H2; discriminate].
Defined.

Lemma invalid_submission_is_noop_witness :
  exists field,
    field ∈ requiredFields
    /\ Sample.step Sample.blankComponent Submit
       = Some (Sample.blankComponent, [PreventDefault; missingFieldToast field]).
Proof.
  destruct (invalid_submission_is_noop Sample.API_URL Sample.shippingRule
              Sample.taxRule Sample.hrefAccepts Sample.blankComponent)
    as (field & Hin & _ & Hstep).
  - vm_compute. reflexivity.
  - exists field. split; [exact Hin | exact Hstep].
Defined.

Lemma navigate_only_from_guard_witness :
  exists ctx, Render Sample.emptyCart = Render ctx /\ getTotalPrice ctx = 0%Z.
Proof.
  destruct (navigate_only_from_guard Sample.API_URL Sample.shippingRule Sample.taxRule
              Sample.hrefAccepts Sample.afterSubmit
              {| st := st Sample.afterSubmit; rendered := Sample.emptyCart;
                 inflight := [AwaitPost] |}
              (Render Sample.emptyCart) [Navigate "/cart"] "/cart")
    as (_ & _ & ctx & He & H0 & _).
  - vm_compute. reflexivity.
  - apply list_elem_of_here.
  - exists ctx. split; [exact He | exact H0].
Defined.

Lemma settle_outcome_witness :
  inflight Sample.afterSubmit !! 0%nat = Some AwaitPost.
Proof.
  apply (settle_outcome Sample.API_URL Sample.shippingRule Sample.taxRule
           Sample.hrefAccepts Sample.afterSubmit
           {| st := st Sample.afterSubmit; rendered := Sample.fullCart;
              inflight := [AwaitDelay VUndefined] |}
           0 (Resolved Sample.linkWithoutUrl) [SetTimeout 1500]).
  vm_compute. reflexivity.
Defined.

Lemma call_end_clears_processing_witness :
  isProcessing (st (Sample.filled Sample.fullCart)) = false
  /\ Sample.hrefAccepts (VStr (lit "http://")) = false.
Proof.
  destruct (call_end_clears_processing Sample.API_URL Sample.shippingRule
              Sample.taxRule Sample.hrefAccepts
              {| st := st Sample.afterSubmit; rendered := Sample.fullCart;
                 inflight := [AwaitDelay (VStr (lit "http://"))] |}
              (Sample.filled Sample.fullCart) (TimerFired 0) failureEffects)
    as [Hend _].
  - vm_compute. reflexivity.
  - destruct Hend as (Hp & _ & _); [simpl; lia|].
    split; [exact Hp | vm_compute; reflexivity].
Defined.

Lemma overlapping_submissions_witness :
  exists s2 s3,
    inflight s2 = [AwaitPost; AwaitPost]
    /\ Sample.step s2 (PostSettled 1 Rejected) = Some (s3, failureEffects)
    /\ inflight s3 = [AwaitPost]
    /\ disabled (st s3) = Returns false.
Proof.
  destruct (overlapping_submissions Sample.API_URL Sample.shippingRule Sample.taxRule
              Sample.hrefAccepts (Sample.filled Sample.fullCart) Rejected filled_valid)
    as (s2 & s3 & _ & Hi & Hstep & Hi3 & _ & Hd).
  - left. reflexivity.
  - exists s2, s3. repeat split; assumption.
Defined.

Lemma redirect_does_not_cancel_witness :
  exists s',
    Sample.run (Sample.filled Sample.fullCart)
      [Submit; Render Sample.emptyCart; PostSettled 0 (Resolved Sample.okResponse);
       TimerFired 0]
    = Some (s', [PreventDefault; AxiosPost Sample.sampleUrl Sample.sampleBody;
                 Navigate "/cart"; SetTimeout 1500;
                 LocationHref (VStr (lit "https://pay.example/abc"))]).
Proof.
  destruct (redirect_does_not_cancel Sample.API_URL Sample.shippingRule Sample.taxRule
              Sample.hrefAccepts (Sample.filled Sample.fullCart) Sample.emptyCart
              Sample.okResponse
              (VStr (lit "https://pay.example/abc")) filled_valid)
    as (s' & Hrun & _).
  - discriminate.
  - reflexivity.
  - reflexivity.
  - vm_compute. reflexivity.
  - exists s'. exact Hrun.
Defined.

Lemma resubmission_repeats_request_witness :
  exists s',
    Sample.run (Sample.filled Sample.fullCart) [Submit; PostSettled 0 Rejected; Submit]
    = Some (s', [PreventDefault; AxiosPost Sample.sampleUrl Sample.sampleBody]
                ++ failureEffects
                ++ [PreventDefault; AxiosPost Sample.sampleUrl Sample.sampleBody])
    /\ inflight s' = [AwaitPost].
Proof.
  destruct (resubmission_repeats_request Sample.API_URL Sample.shippingRule
              Sample.taxRule Sample.hrefAccepts (Sample.filled Sample.fullCart)
              Rejected filled_valid)
    as (s' & Hrun & Hi & _).
  - left. reflexivity.
  - exists s'. split; [exact Hrun | exact Hi].
Defined.

Lemma summary_matches_request_witness :
  summaryTotal Sample.shippingRule Sample.taxRule Sample.formatPrice 2500
  = Sample.formatPrice (totalAmount Sample.sampleBody).
Proof.
  apply (summary_matches_request Sample.API_URL Sample.shippingRule Sample.taxRule
           Sample.hrefAccepts Sample.formatPrice (Sample.filled Sample.fullCart)
           Sample.afterSubmit
           [PreventDefault; AxiosPost Sample.sampleUrl Sample.sampleBody]
           Sample.sampleUrl Sample.sampleBody).
  - vm_compute. reflexivity.
  - apply list_elem_of_further, list_elem_of_here.
Defined.

Lemma effects_accounting_witness :
  tally isHref ([PreventDefault; AxiosPost Sample.sampleUrl Sample.sampleBody]
                ++ failureEffects)
  <= tally isTimer ([PreventDefault; AxiosPost Sample.sampleUrl Sample.sampleBody]
                    ++ failureEffects)
  <= tally isPost ([PreventDefault; AxiosPost Sample.sampleUrl Sample.sampleBody]
                   ++ failureEffects).
Proof.
  apply (effects_accounting Sample.API_URL Sample.shippingRule Sample.taxRule
           Sample.hrefAccepts (Sample.filled Sample.fullCart)
           (Sample.filled Sample.fullCart)
           [Submit; PostSettled 0 Rejected]).
  - reflexivity.
  - vm_compute. reflexivity.
Defined.

(** X19. A submission that comes through the enabled submit control
    always passes [validateForm]: it raises no notification, sets both
    flags and sends the request.  The notification of [validateForm] can
    only be seen when [handleSubmit] runs while the control is disabled. *)
Theorem enabled_submit_always_posts (API_URL : jsstring)
    (shippingRule taxRule : Z -> Z) (hrefAccepts : jsval -> bool)
    (s s' : component) effs :
  disabled (st s) = Returns false ->
  step API_URL shippingRule taxRule hrefAccepts s Submit = Some (s', effs) ->
  effs = [PreventDefault;
          AxiosPost (paymentLinkUrl API_URL)
                    (requestBody shippingRule taxRule (rendered s) (formData (st s)))]
  /\ isProcessing (st s') = true /\ animateTruck (st s') = true
  /\ formData (st s') = formData (st s)
  /\ inflight s' = inflight s ++ [AwaitPost].
Proof.
  intros Hd Hstep. apply disabled_false_inv in Hd as [Hv _].
  assert (Hv' : snd (validateForm (formData (st s))) = true) by (rewrite Hv; reflexivity).
  rewrite (step_submit_valid API_URL shippingRule taxRule hrefAccepts s Hv') in Hstep.
  injection Hstep as <- <-. repeat split.
Qed.

Lemma enabled_submit_always_posts_witness :
  [PreventDefault; AxiosPost Sample.sampleUrl Sample.sampleBody]
  = [PreventDefault;
     AxiosPost (paymentLinkUrl Sample.API_URL)
               (requestBody Sample.shippingRule Sample.taxRule Sample.fullCart
                            Sample.filledForm)]
  /\ isProcessing (st Sample.afterSubmit) = true.
Proof.
  destruct (enabled_submit_always_posts Sample.API_URL Sample.shippingRule
              Sample.taxRule Sample.hrefAccepts (Sample.filled Sample.fullCart)
              Sample.afterSubmit
              [PreventDefault; AxiosPost Sample.sampleUrl Sample.sampleBody])
    as (Heffs & Hp & _).
  - vm_compute. reflexivity.
  - vm_compute. reflexivity.
  - split; [exact Heffs | exact Hp].
Defined.
